(** * FlowLink screen relay: a shallow embedding of the two relay pipelines

    The development follows [src/Project/showscreen.py] (phone -> PC
    mirroring: [ScreenCaptureThread] and [display_optimized_window]) and
    [src/Project/showPC.py] (PC -> phone relay: the [/screen] and [/click]
    handlers).

    Python values are modelled as the code has them: [int] as [Z],
    [float] as an IEEE binary64 [spec_float], [str] as [string], a [dict]
    as a [gmap], [queue.Queue] as its deque with [maxsize].  What the
    operating system and the third-party libraries answer (subprocess,
    cv2, PIL, pyautogui, the clock) is given by an explicit environment;
    the calls that the program guards with [try] may raise there.

    The first part holds the embedding, the second part the properties. *)

From Stdlib Require Import ZArith List String Ascii Bool Lia DecimalString.
From Stdlib Require Import Floats.SpecFloat.
From stdpp Require Import gmap strings list fin_maps.

Local Open Scope string_scope.
Local Open Scope Z_scope.

(** ** Python exceptions and results *)

Module Py.

(** The exception classes that the modelled calls raise.  All of them
    derive from [Exception]; [Empty] is [queue.Empty]. *)
Inductive exn_kind :=
| ValueError | TypeError | IndexError | ZeroDivisionError | OverflowError
| AttributeError | FileNotFoundError | TimeoutExpired | OSError
| Cv2Error | HTTPException | FailSafeException | Empty.

Record exn := Exn { kind : exn_kind; msg : string }.

Inductive result (A : Type) :=
| Ok (a : A)
| Raise (e : exn).
Arguments Ok {A} a.
Arguments Raise {A} e.

#[global] Instance exn_kind_eq_dec : EqDecision exn_kind.
Proof. solve_decision. Defined.

#[global] Instance result_ret : MRet result := @Ok.
#[global] Instance result_bind : MBind result :=
  fun A B f m => match m with Ok a => f a | Raise e => Raise e end.

#[global] Instance result_fmap : FMap result :=
  fun A B f m => match m with Ok a => Ok (f a) | Raise e => Raise e end.

(** [try: body except K: handler] for the kinds selected by [handles]. *)
Definition try_except {A} (body : result A) (handles : exn -> bool)
    (handler : exn -> result A) : result A :=
  match body with
  | Ok a => Ok a
  | Raise e => if handles e then handler e else Raise e
  end.

(** [except Exception]: every modelled class derives from [Exception]. *)
Definition is_Exception (e : exn) : bool := true.

(** [except Empty] *)
Definition is_Empty (e : exn) : bool := bool_decide (kind e = Empty).

(** [str(e)] *)
Definition str_of_exn (e : exn) : string := msg e.

(** Computations that also act on a world [S]: the world is kept when
    an exception is raised. *)
Definition M (S A : Type) : Type := S -> result A * S.

#[global] Instance M_ret {S} : MRet (M S) := fun A a s => (Ok a, s).
#[global] Instance M_bind {S} : MBind (M S) :=
  fun A B f m s =>
    match m s with
    | (Ok a, s') => f a s'
    | (Raise e, s') => (Raise e, s')
    end.

Definition lift {S A} (r : result A) : M S A := fun s => (r, s).

Definition try_exceptM {S A} (body : M S A) (handles : exn -> bool)
    (handler : exn -> M S A) : M S A :=
  fun s =>
    match body s with
    | (Ok a, s') => (Ok a, s')
    | (Raise e, s') => if handles e then handler e s' else (Raise e, s')
    end.

End Py.
Import Py.

(** ** IEEE binary64 floats *)

Module F64.

Definition prec : Z := 53.
Definition emax : Z := 1024.

(** The double nearest to [m * 2^e] (ties to even). *)
Definition of_bin (m e : Z) : spec_float := binary_normalize prec emax m e false.

(** [float(n)] for a Python int: correctly rounded, and an
    [OverflowError] when the int is beyond the double range. *)
Definition of_int (n : Z) : result spec_float :=
  match of_bin n 0 with
  | S754_infinity _ => Raise (Exn OverflowError "int too large to convert to float")
  | f => Ok f
  end.

Definition mul : spec_float -> spec_float -> spec_float := SFmul prec emax.
Definition sub : spec_float -> spec_float -> spec_float := SFsub prec emax.
Definition ltb : spec_float -> spec_float -> bool := SFltb.

Definition is_zero (f : spec_float) : bool :=
  match f with S754_zero _ => true | _ => false end.

(** Python float division: a zero divisor raises. *)
Definition div (x y : spec_float) : result spec_float :=
  if is_zero y then Raise (Exn ZeroDivisionError "float division by zero")
  else Ok (SFdiv prec emax x y).

(** The double denoted by the decimal literal [n/d] (both exactly
    representable): the correctly rounded quotient. *)
Definition dec (n d : Z) : spec_float := SFdiv prec emax (of_bin n 0) (of_bin d 0).

(** [int(f)]: truncation toward zero of the exact value. *)
Definition to_int (f : spec_float) : result Z :=
  match f with
  | S754_zero _ => Ok 0
  | S754_finite s m e => Ok (cond_Zopp s (Z.shiftl (Zpos m) e))
  | S754_infinity _ => Raise (Exn OverflowError "cannot convert float infinity to integer")
  | S754_nan => Raise (Exn ValueError "cannot convert float NaN to integer")
  end.

(** [round(f)] with no [ndigits]: the nearest integer, ties to even. *)
Definition round_half_even (f : spec_float) : result Z :=
  match f with
  | S754_zero _ => Ok 0
  | S754_finite s m e =>
      if 0 <=? e then Ok (cond_Zopp s (Z.shiftl (Zpos m) e))
      else
        let q := Z.shiftl (Zpos m) e in
        let r := Zpos m - Z.shiftl q (- e) in
        let half := Z.shiftl 1 (- e - 1) in
        let up := (half <? r) || ((r =? half) && Z.odd q) in
        Ok (cond_Zopp s (if up then q + 1 else q))
  | S754_infinity _ => Raise (Exn OverflowError "cannot convert float infinity to integer")
  | S754_nan => Raise (Exn ValueError "cannot convert float NaN to integer")
  end.

(** A Python int of any size as the numerator or denominator of a
    division: the mantissa is the int itself. *)
Definition exact (n : Z) : spec_float :=
  match n with
  | Z0 => S754_zero false
  | Zpos p => S754_finite false p 0
  | Zneg p => S754_finite true p 0
  end.

(** [a / b] on Python ints: [ZeroDivisionError] for a zero divisor,
    otherwise the quotient of the two ints rounded once to the nearest
    double, whatever their size, and [OverflowError] when it is beyond
    the double range. *)
Definition truediv (a b : Z) : result spec_float :=
  if b =? 0 then Raise (Exn ZeroDivisionError "division by zero")
  else match SFdiv prec emax (exact a) (exact b) with
       | S754_infinity _ =>
           Raise (Exn OverflowError "integer division result too large for a float")
       | f => Ok f
       end.

(** [n * f] for an int and a float: the int is converted first. *)
Definition int_mul (n : Z) (f : spec_float) : result spec_float :=
  x ← of_int n; Ok (mul x f).

(** [f * n] for a float and an int. *)
Definition mul_int (f : spec_float) (n : Z) : result spec_float :=
  y ← of_int n; Ok (mul f y).

(** [1.0] *)
Definition one : spec_float := of_bin 1 0.

(** [a >= b] *)
Definition geb (a b : spec_float) : bool := SFleb b a.

(** [max(a, b)] on floats: [b] only when [b > a]. *)
Definition py_max (a b : spec_float) : spec_float := if ltb a b then b else a.

End F64.

(** ** [queue.Queue] *)

Module PyQueue.
Section Queue.
Context {A : Type}.

(** The deque of a [queue.Queue], oldest entry first. *)
Record Queue := mkQueue { maxsize : Z; items : list A }.

Definition new (maxsize : Z) : Queue := mkQueue maxsize [].

Definition qsize (q : Queue) : Z := Z.of_nat (length (items q)).

(** [full()] is [0 < maxsize <= qsize()]: a [maxsize] of zero or less
    makes the queue unbounded. *)
Definition full (q : Queue) : bool := (0 <? maxsize q) && (maxsize q <=? qsize q).

(** [get_nowait()]: the oldest entry, or [Empty]. *)
Definition get_nowait (q : Queue) : result (A * Queue) :=
  match items q with
  | [] => Raise (Exn Empty EmptyString)
  | x :: rest => Ok (x, mkQueue (maxsize q) rest)
  end.

(** [put(item)] with the default [block=True]: it waits while the
    queue is full, which is [None] here. *)
Definition put (x : A) (q : Queue) : option Queue :=
  if full q then None else Some (mkQueue (maxsize q) (items q ++ [x])).
End Queue.
Arguments Queue A : clear implicits.
End PyQueue.

(** ** Python [str] operations

    A [str] is a [string] whose characters are code points below 256. *)

Module PyStr.

Definition chars (s : string) : list ascii := list_ascii_of_string s.
Definition of_chars (cs : list ascii) : string := string_of_list_ascii cs.

Definition code (c : ascii) : Z := Z.of_nat (nat_of_ascii c).

(** [c.isspace()] for the code points below 256. *)
Definition is_space (c : ascii) : bool :=
  let n := code c in
  ((9 <=? n) && (n <=? 13)) || ((28 <=? n) && (n <=? 32))
  || (n =? 133) || (n =? 160).

Fixpoint lstrip_chars (sp : ascii -> bool) (cs : list ascii) : list ascii :=
  match cs with
  | c :: cs' => if sp c then lstrip_chars sp cs' else cs
  | [] => []
  end.

Definition strip_chars (sp : ascii -> bool) (cs : list ascii) : list ascii :=
  reverse (lstrip_chars sp (reverse (lstrip_chars sp cs))).

(** [s.strip()] *)
Definition strip (s : string) : string := of_chars (strip_chars is_space (chars s)).

Fixpoint starts_with (p s : list ascii) : bool :=
  match p, s with
  | [], _ => true
  | a :: p', b :: s' => bool_decide (a = b) && starts_with p' s'
  | _ :: _, [] => false
  end.

Fixpoint contains_chars (sub s : list ascii) : bool :=
  starts_with sub s ||
  match s with
  | [] => false
  | _ :: s' => contains_chars sub s'
  end.

(** [sub in s] *)
Definition contains (sub s : string) : bool := contains_chars (chars sub) (chars s).

(** Left-to-right scan for a non-empty separator: [skip] counts the
    characters of a separator just matched, [cur] holds the current
    piece backwards. *)
Fixpoint split_chars (sep s : list ascii) (skip : nat) (cur : list ascii)
    : list (list ascii) :=
  match s with
  | [] => [reverse cur]
  | c :: s' =>
      match skip with
      | S n => split_chars sep s' n cur
      | O =>
          if starts_with sep s
          then reverse cur :: split_chars sep s' (Nat.pred (length sep)) []
          else split_chars sep s' O (c :: cur)
      end
  end.

(** [s.split(sep)] for a non-empty [sep]. *)
Definition split (sep s : string) : list string :=
  of_chars <$> split_chars (chars sep) (chars s) O [].

(** [sys.get_int_max_str_digits()] as the interpreter starts: the most
    digits that [int] reads from a [str] and that [str] writes for an
    [int]. *)
Definition int_max_str_digits : Z := 4300.

(** The number of decimal digits of [n], and [n] written in decimal. *)
Definition ndigits (n : Z) : Z :=
  Z.of_nat (Decimal.nb_digits (N.to_uint (Z.to_N (Z.abs n)))).

Definition decimal (n : Z) : string := NilZero.string_of_int (Z.to_int n).

(** The [ValueError] of [str(n)], and of [int(s)] for a literal with
    [count] digits. *)
Definition str_limit : exn :=
  Exn ValueError
    "Exceeds the limit (4300 digits) for integer string conversion; use sys.set_int_max_str_digits() to increase the limit".

Definition int_limit (count : Z) : exn :=
  Exn ValueError
    ("Exceeds the limit (4300 digits) for integer string conversion: value has "
     ++ decimal count
     ++ " digits; use sys.set_int_max_str_digits() to increase the limit").

Definition digit (c : ascii) : option Z :=
  let n := code c in
  if (48 <=? n) && (n <=? 57) then Some (n - 48) else None.

(** Decimal digits, single underscores allowed between two digits. *)
Fixpoint digits (cs : list ascii) (acc : Z) (after_digit : bool) : option Z :=
  match cs with
  | [] => if after_digit then Some acc else None
  | c :: cs' =>
      match digit c with
      | Some d => digits cs' (10 * acc + d) true
      | None =>
          if bool_decide (c = "_"%char) && after_digit
          then digits cs' acc false
          else None
      end
  end.

(** The digits and underscores that [cs] begins with, and what follows
    them. *)
Fixpoint literal_run (cs : list ascii) : list ascii * list ascii :=
  match cs with
  | c :: cs' =>
      if bool_decide (is_Some (digit c) \/ c = "_"%char)
      then let '(run, rest) := literal_run cs' in (c :: run, rest)
      else ([], cs)
  | [] => ([], [])
  end.

Fixpoint count_digits (cs : list ascii) : Z :=
  match cs with
  | c :: cs' => (if bool_decide (is_Some (digit c)) then 1 else 0) + count_digits cs'
  | [] => 0
  end.

Definition invalid_literal (s : string) : exn :=
  Exn ValueError ("invalid literal for int() with base 10: " ++ s).

(** The literal of [s] after its sign, read as [int] reads it: the run
    of digits and underscores must be well formed, then it must not have
    more than [int_max_str_digits] digits, then nothing may follow it. *)
Definition unsigned (s : string) (cs : list ascii) : result Z :=
  let '(run, rest) := literal_run cs in
  match digits run 0 false with
  | None => Raise (invalid_literal s)
  | Some n =>
      if int_max_str_digits <? count_digits run
      then Raise (int_limit (count_digits run))
      else match rest with
           | [] => Ok n
           | _ :: _ => Raise (invalid_literal s)
           end
  end.

Definition signed_digits (s : string) (cs : list ascii) : result Z :=
  match cs with
  | c :: cs' =>
      if bool_decide (c = "-"%char) then Z.opp <$> unsigned s cs'
      else if bool_decide (c = "+"%char) then unsigned s cs'
      else unsigned s cs
  | [] => Raise (invalid_literal s)
  end.

(** The whitespace that [int] skips around the literal: tab, newline,
    vertical tab, form feed, carriage return, space, and beyond ASCII
    what [isspace()] accepts; the separators [0x1c..0x1f] are not
    skipped. *)
Definition int_space (c : ascii) : bool :=
  let n := code c in
  ((9 <=? n) && (n <=? 13)) || (n =? 32) || (n =? 133) || (n =? 160).

(** [int(s)] for a [str]: surrounding whitespace, a sign, at most
    [int_max_str_digits] decimal digits; anything else is a
    [ValueError]. *)
Definition int (s : string) : result Z :=
  signed_digits s (strip_chars int_space (chars s)).

(** [s * n] *)
Definition repeat (s : string) (n : Z) : string :=
  Nat.iter (Z.to_nat n) (String.append s) EmptyString.

End PyStr.

Import PyQueue.

(** ** [showscreen.py]: the capture thread *)

Module ShowScreen.
(** What [subprocess.run] returns. *)
Record CompletedProcess (O : Type) := mkProc { returncode : Z; stdout : O }.
Arguments mkProc {O} _ _.
Arguments returncode {O} _.
Arguments stdout {O} _.

Section CaptureThread.
Context {frame : Type}.

(** The fields that [ScreenCaptureThread.__init__] sets. *)
Record ScreenCaptureThread := mkThread {
  target_width : Z;
  frame_queue : Queue frame;
  running : bool;
  daemon : bool
}.

(** [__init__(self, target_width=480, max_queue_size=2)] *)
Definition init (target_width max_queue_size : Z) : ScreenCaptureThread :=
  {| target_width := target_width;
     frame_queue := PyQueue.new max_queue_size;
     running := true;
     daemon := true |}.

Definition default_target_width : Z := 480.
Definition default_max_queue_size : Z := 2.

Definition with_queue (self : ScreenCaptureThread) (q : Queue frame) :=
  {| target_width := target_width self; frame_queue := q;
     running := running self; daemon := daemon self |}.

(** [stop(self)] *)
Definition stop (self : ScreenCaptureThread) : ScreenCaptureThread :=
  {| target_width := target_width self; frame_queue := frame_queue self;
     running := false; daemon := daemon self |}.

(** [get_latest_frame(self)]: [get_nowait()], and [None] on [Empty]. *)
Definition get_latest_frame (self : ScreenCaptureThread)
    : result (option frame * ScreenCaptureThread) :=
  try_except
    ('(x, q) ← get_nowait (frame_queue self); Ok (Some x, with_queue self q))
    is_Empty
    (fun _ => Ok (None, self)).

(** The answers of the outside world during one call of
    [get_screenshot_with_size]: the two [subprocess.run] calls (text
    and binary output, each with [timeout=2]), the decoding
    [cv2.imdecode(np.frombuffer(..))], which yields [None] for bytes
    that are no image, and [cv2.resize]. *)
Record bridge := mkBridge {
  run_text : list string -> result (CompletedProcess string);
  run_bytes : list string -> result (CompletedProcess (list Byte.byte));
  imdecode : list Byte.byte -> result (option frame);
  resize : frame -> Z * Z -> result frame
}.

Definition adb : string := "./platform-tools/adb.exe".

(** [xs[i]] on a list *)
Definition index {A} (xs : list A) (i : nat) : result A :=
  match xs !! i with
  | Some x => Ok x
  | None => Raise (Exn IndexError "list index out of range")
  end.

(** [a, b = it] for a lazy iterator [it] such as [map(int, ..)]: the
    elements are evaluated in turn, and a third one is asked for to
    see that there is none. *)
Definition unpack2 {A} (it : list (result A)) : result (A * A) :=
  match it with
  | [] => Raise (Exn ValueError "not enough values to unpack (expected 2, got 0)")
  | a :: it' =>
      x ← a;
      match it' with
      | [] => Raise (Exn ValueError "not enough values to unpack (expected 2, got 1)")
      | b :: it'' =>
          y ← b;
          match it'' with
          | [] => Ok (x, y)
          | c :: _ => _ ← c; Raise (Exn ValueError "too many values to unpack (expected 2)")
          end
      end
  end.

(** The [try] block of [get_screenshot_with_size]. *)
Definition screenshot_steps (env : bridge) (width : Z) : result (option frame) :=
  result ← run_text env [adb; "shell"; "wm"; "size"];
  if PyStr.contains "Physical size" (stdout result) then
    size_str ← PyStr.strip <$> index (PyStr.split ": " (stdout result)) 1%nat;
    '(w, h) ← unpack2 (PyStr.int <$> PyStr.split "x" size_str);
    scale ← F64.truediv width w;
    height ← (F64.int_mul h scale ≫= F64.to_int);
    screenshot_result ← run_bytes env [adb; "exec-out"; "screencap"; "-p"];
    if returncode screenshot_result =? 0 then
      img ← imdecode env (stdout screenshot_result);
      match img with
      | Some img => img ← resize env img (width, height); Ok (Some img)
      | None => Ok None
      end
    else Ok None
  else Ok None.

(** [get_screenshot_with_size(self, width=480)]: the steps above under
    [try: .. except Exception: return None]. *)
Definition get_screenshot_with_size (env : bridge) (width : Z)
    : result (option frame) :=
  try_except (screenshot_steps env width) is_Exception (fun _ => Ok None).

(** What the thread does that the outside can observe. *)
Inductive event :=
| Sleep (seconds : spec_float).

(** [time.sleep(0.01)] and [time.sleep(0.1)] *)
Definition short_sleep : spec_float := F64.dec 1 100.
Definition long_sleep : spec_float := F64.dec 1 10.

(** Lines 24-28 of [run]: a full queue gives up its oldest frame; an
    [Empty] from a consumer that got there first is passed over. *)
Definition discard_old (q : Queue frame) : result (Queue frame) :=
  if full q then
    try_except ('(_, q') ← get_nowait q; Ok q') is_Empty (fun _ => Ok q)
  else Ok q.

(** One pass through the body of [while self.running].  [put] is the
    only call that can wait. *)
Inductive iteration :=
| Completed (self : ScreenCaptureThread) (evs : list event)
| BlockedInPut (self : ScreenCaptureThread).

(** The body of the loop in [run]; [cap] is what
    [get_screenshot_with_size] did in this pass. *)
Definition run_body (cap : result (option frame)) (self : ScreenCaptureThread)
    : result iteration :=
  try_except
    (frame ← cap;
     match frame with
     | Some f =>
         q0 ← discard_old (frame_queue self);
         match put f q0 with
         | Some q1 => Ok (Completed (with_queue self q1) [Sleep short_sleep])
         | None => Ok (BlockedInPut (with_queue self q0))
         end
     | None => Ok (Completed self [Sleep short_sleep])
     end)
    is_Exception
    (fun _ => Ok (Completed self [Sleep long_sleep])).

(** Where a run over finitely many capture results ends. *)
Inductive status := AtLoopHead | ExitedLoop | WaitingInPut.

(** [run]: [while self.running: body], over the capture results of the
    successive passes. *)
Fixpoint run (caps : list (result (option frame))) (self : ScreenCaptureThread)
    (trace : list event) : result (ScreenCaptureThread * list event * status) :=
  if running self then
    match caps with
    | [] => Ok (self, trace, AtLoopHead)
    | cap :: caps' =>
        it ← run_body cap self;
        match it with
        | Completed self' evs => run caps' self' (trace ++ evs)
        | BlockedInPut self' => Ok (self', trace, WaitingInPut)
        end
    end
  else Ok (self, trace, ExitedLoop).

(** A pass whose capture produced the frame [f]. *)
Definition captured (f : frame) : result (option frame) := Ok (Some f).

(** A pass whose capture was [Unavailable]. *)
Definition unavailable : result (option frame) := Ok None.

(** The queue of [self] is bounded by [N] and holds [l]. *)
Definition holds (self : ScreenCaptureThread) (N : nat) (l : list frame) : Prop :=
  maxsize (frame_queue self) = Z.of_nat N /\ items (frame_queue self) = l.

(** What is left of [l] when only its [N] newest entries are kept. *)
Definition newest (N : nat) (l : list frame) : list frame :=
  drop (length l - N) l.

(** Every step of [get_screenshot_with_size] succeeds and [img] is the
    resized frame. *)
Definition steps_succeed (env : bridge) (width : Z) (img : frame) : Prop :=
  exists proc field w h scale height shot raw,
    run_text env [adb; "shell"; "wm"; "size"] = Ok proc
    /\ PyStr.contains "Physical size" (stdout proc) = true
    /\ index (PyStr.split ": " (stdout proc)) 1%nat = Ok field
    /\ unpack2 (PyStr.int <$> PyStr.split "x" (PyStr.strip field)) = Ok (w, h)
    /\ F64.truediv width w = Ok scale
    /\ (F64.int_mul h scale ≫= F64.to_int) = Ok height
    /\ run_bytes env [adb; "exec-out"; "screencap"; "-p"] = Ok shot
    /\ returncode shot = 0
    /\ imdecode env (stdout shot) = Ok (Some raw)
    /\ resize env raw (width, height) = Ok img.

(** [run] against the device: each pass asks the bridge of that pass. *)
Definition run_on (envs : list bridge) (self : ScreenCaptureThread)
    : result (ScreenCaptureThread * list event * status) :=
  run ((fun env => get_screenshot_with_size env (target_width self)) <$> envs)
      self [].

(** *** The thread among the others

    The producer thread advances in steps; between two of its steps
    another thread may call [stop] or [get_latest_frame]. *)

Inductive pc :=
| LoopHead               (* about to test [self.running] *)
| InBody                 (* inside the [try] block, before [put] returns *)
| InPut (f : frame)      (* waiting in [put(frame)] on a full queue *)
| Exited.                (* [run] has returned *)

Record machine := mkMachine {
  m_thread : ScreenCaptureThread;
  m_pc : pc;
  m_trace : list event;
  m_started : nat        (* passes through the loop body begun so far *)
}.

Inductive action :=
| ThreadStep (cap : result (option frame))
| CallStop
| CallGetLatestFrame.

Definition thread_step (cap : result (option frame)) (m : machine) : machine :=
  match m_pc m with
  | LoopHead =>
      if running (m_thread m)
      then mkMachine (m_thread m) InBody (m_trace m) (S (m_started m))
      else mkMachine (m_thread m) Exited (m_trace m) (m_started m)
  | InBody =>
      match run_body cap (m_thread m) with
      | Ok (Completed self' evs) =>
          mkMachine self' LoopHead (m_trace m ++ evs) (m_started m)
      | Ok (BlockedInPut self') =>
          match cap with
          | Ok (Some f) => mkMachine self' (InPut f) (m_trace m) (m_started m)
          | _ => mkMachine self' InBody (m_trace m) (m_started m)
          end
      | Raise _ => mkMachine (m_thread m) Exited (m_trace m) (m_started m)
      end
  | InPut f =>
      match put f (frame_queue (m_thread m)) with
      | Some q => mkMachine (with_queue (m_thread m) q) LoopHead
                    (m_trace m ++ [Sleep short_sleep]) (m_started m)
      | None => m
      end
  | Exited => m
  end.

Definition step (a : action) (m : machine) : machine :=
  match a with
  | ThreadStep cap => thread_step cap m
  | CallStop => mkMachine (stop (m_thread m)) (m_pc m) (m_trace m) (m_started m)
  | CallGetLatestFrame =>
      match get_latest_frame (m_thread m) with
      | Ok (_, self') => mkMachine self' (m_pc m) (m_trace m) (m_started m)
      | Raise _ => m
      end
  end.

Definition exec (acts : list action) (m : machine) : machine :=
  foldl (fun m a => step a m) m acts.

(** [capture_thread.start()] on a fresh thread object. *)
Definition start (self : ScreenCaptureThread) : machine :=
  mkMachine self LoopHead [] O.

Definition is_thread_step (a : action) : bool :=
  match a with ThreadStep _ => true | _ => false end.

Definition thread_steps (acts : list action) : nat :=
  length (filter (fun a => is_thread_step a = true) acts).

(** The queue respects its bound, if it has one. *)
Definition bounded (q : Queue frame) : Prop :=
  maxsize q <= 0 \/ Z.of_nat (length (items q)) <= maxsize q.

Definition waiting_in_put (p : pc) : bool :=
  match p with InPut _ => true | _ => false end.

Definition in_pass (p : pc) : bool :=
  match p with InBody | InPut _ => true | LoopHead | Exited => false end.

(** Thread steps that a stopped thread needs at most to reach
    [Exited], when it does not wait in [put]. *)
Definition steps_to_exit (p : pc) : nat :=
  match p with
  | InBody | InPut _ => 2
  | LoopHead => 1
  | Exited => 0
  end.

(** What holds of a machine once [stop] was called in a state with
    [s0] passes begun, trace [t0] and program counter [p0]: the flag
    is down, no further pass was begun, and the trace grew by at most
    the one sleep that ends the pass in progress at the call. *)
Definition after_stop (s0 : nat) (t0 : list event) (p0 : pc) (m : machine)
    : Prop :=
  running (m_thread m) = false /\ m_started m = s0 /\
  exists evs, m_trace m = (t0 ++ evs)%list /\
    if in_pass (m_pc m) then evs = [] /\ in_pass p0 = true
    else (length evs <= if in_pass p0 then 1 else 0)%nat.

(** *** [display_optimized_window]: one pass of the display loop *)

Record display_state := mkDisplay {
  capture_thread : ScreenCaptureThread;
  frame_count : Z;
  last_fps_update : spec_float
}.

(** The readings of [time.time()] during one pass, in program order,
    and what [cv2.waitKey(1)] returned. *)
Record tick := mkTick {
  t_frame_start : spec_float;
  t_current : spec_float;     (* read only when a frame was shown *)
  t_after : spec_float;
  key : Z
}.

Inductive display_event :=
| ImShow (img : frame)
| SetWindowTitle (fps : spec_float) (target_width : Z)
| DisplaySleep (seconds : spec_float)
| WaitKey (ms : Z).

(** The [0.001] of line 120. *)
Definition epsilon : spec_float := F64.dec 1 1000.

(** Lines 118-120: the sleep computed at the end of a pass. *)
Definition sleep_time (target_fps : Z) (frame_start now : spec_float)
    : result spec_float :=
  let elapsed_frame := F64.sub now frame_start in
  target_frame_time ← (fps ← F64.of_int target_fps; F64.div F64.one fps);
  Ok (F64.py_max epsilon (F64.sub target_frame_time elapsed_frame)).

(** Lines 95-125; the [bool] tells whether the loop breaks. *)
Definition display_pass (target_width target_fps : Z) (clk : tick)
    (st : display_state) : result (display_state * list display_event * bool) :=
  '(img, thread) ← get_latest_frame (capture_thread st);
  '(st', shown) ←
    match img with
    | Some img =>
        let count := frame_count st + 1 in
        let elapsed := F64.sub (t_current clk) (last_fps_update st) in
        if F64.geb elapsed F64.one then
          fps ← (c ← F64.of_int count; F64.div c elapsed);
          Ok (mkDisplay thread 0 (t_current clk),
              [ImShow img; SetWindowTitle fps target_width])
        else Ok (mkDisplay thread count (last_fps_update st), [ImShow img])
    | None => Ok (mkDisplay thread (frame_count st) (last_fps_update st), [])
    end;
  sleep ← sleep_time target_fps (t_frame_start clk) (t_after clk);
  Ok (st', (shown ++ [DisplaySleep sleep; WaitKey 1])%list,
      Z.land (key clk) 255 =? 113).

End CaptureThread.
Arguments ScreenCaptureThread frame : clear implicits.
Arguments iteration frame : clear implicits.
Arguments bridge frame : clear implicits.
Arguments machine frame : clear implicits.
Arguments action frame : clear implicits.
Arguments pc frame : clear implicits.
Arguments display_state frame : clear implicits.
Arguments display_event frame : clear implicits.

(** A device for examples: the two bridge commands answer as told,
    output that starts with a zero byte is no image, empty output makes
    the decoder raise, and a resize to a non-positive size fails. A frame
    is its bytes and its size. *)
Definition sample_bridge (wm : result (CompletedProcess string))
    (cap : result (CompletedProcess (list Byte.byte)))
    : bridge (list Byte.byte * (Z * Z)) :=
  {| run_text := fun _ => wm;
     run_bytes := fun _ => cap;
     imdecode := fun b =>
       match b with
       | [] => Raise (Exn Cv2Error "(-215:Assertion failed) !buf.empty()")
       | Byte.x00 :: _ => Ok None
       | _ => Ok (Some (b, (0, 0)))
       end;
     resize := fun img size =>
       if (0 <? size.1) && (0 <? size.2) then Ok (img.1, size)
       else Raise (Exn Cv2Error "(-215:Assertion failed) !dsize.empty()") |}.
End ShowScreen.

(** ** [showPC.py]: the relay server *)

Module ShowPC.

(** The Python values that a decoded JSON body is made of. *)
#[local] Unset Elimination Schemes.
Inductive pyval :=
| PNone
| PBool (b : bool)
| PInt (n : Z)
| PFloat (f : spec_float)
| PStr (s : string)
| PList (l : list pyval)
| PDict (d : gmap string pyval).
#[local] Set Elimination Schemes.

(** [data.get(k, default)]: only a dict has [get]. *)
Definition get (data : pyval) (k : string) (dflt : pyval) : result pyval :=
  match data with
  | PDict d => Ok (default dflt (d !! k))
  | _ => Raise (Exn AttributeError "object has no attribute 'get'")
  end.

(** [v * n] for an int [n]. *)
Definition mul_int (v : pyval) (n : Z) : result pyval :=
  match v with
  | PBool b => Ok (PInt (Z.b2z b * n))
  | PInt a => Ok (PInt (a * n))
  | PFloat f => PFloat <$> F64.mul_int f n
  | PStr s => Ok (PStr (PyStr.repeat s n))
  | PList l => Ok (PList (mjoin (replicate (Z.to_nat n) l)))
  | PNone | PDict _ =>
      Raise (Exn TypeError "unsupported operand type(s) for *")
  end.

(** [int(v)] *)
Definition int (v : pyval) : result Z :=
  match v with
  | PBool b => Ok (Z.b2z b)
  | PInt n => Ok n
  | PFloat f => F64.to_int f
  | PStr s => PyStr.int s
  | PNone | PList _ | PDict _ =>
      Raise (Exn TypeError "int() argument must be a string, a bytes-like object or a real number")
  end.

(** [round(v)] *)
Definition round (v : pyval) : result Z :=
  match v with
  | PBool b => Ok (Z.b2z b)
  | PInt n => Ok n
  | PFloat f => F64.round_half_even f
  | PNone | PStr _ | PList _ | PDict _ =>
      Raise (Exn TypeError "type doesn't define __round__ method")
  end.

Inductive body :=
| Json (v : pyval)
| Bytes (b : list Byte.byte)
| Html (s : string).

Record response := mkResponse { status_code : Z; mimetype : string; payload : body }.

(** What [json.dumps] writes: an int is written by [str], which refuses
    one of more than 4300 digits. *)
Fixpoint writable (v : pyval) : bool :=
  match v with
  | PInt n => PyStr.ndigits n <=? PyStr.int_max_str_digits
  | PList l => forallb writable l
  | PDict d => map_fold (fun _ v rest => writable v && rest) true d
  | PNone | PBool _ | PFloat _ | PStr _ => true
  end.

(** The response whose body is the dict [d] as JSON. *)
Definition json_response (d : gmap string pyval) (code : Z) : response :=
  mkResponse code "application/json" (Json (PDict d)).

(** [jsonify(d)], and [jsonify(d), code]: the body is written out when
    the call is made, so a value that cannot be written makes it raise. *)
Definition jsonify (d : gmap string pyval) (code : Z) : result response :=
  if writable (PDict d) then Ok (json_response d code) else Raise PyStr.str_limit.

(** What Flask answers for a view: an exception that leaves the view is
    turned into the 500 page. *)
Definition flask_dispatch (r : result response) : response :=
  match r with
  | Ok resp => resp
  | Raise _ => mkResponse 500 "text/html" (Html "Internal Server Error")
  end.

(** The two answers of [handle_click]. *)
Definition success (click_x click_y : Z) : response :=
  json_response {[ "status" := PStr "success"; "x" := PInt click_x;
                   "y" := PInt click_y ]} 200.

Definition failure (e : exn) : response :=
  json_response {[ "status" := PStr "error"; "message" := PStr (str_of_exn e) ]} 500.

Section Click.
(** [G] is the state of the operating system's pointer device. *)
Context {G : Type}.

(** [pyautogui.size()], [pyautogui.moveTo(x, y, duration=d)] and
    [pyautogui.click()], acting on the pointer device. *)
Record pyautogui := mkGui {
  size : M G (Z * Z);
  moveTo : Z -> Z -> spec_float -> M G ();
  click : M G ()
}.

(** The [try] block of [handle_click]; [request_json] is what
    [request.json] evaluates to. *)
Definition click_steps (gui : pyautogui) (request_json : result pyval)
    : M G response :=
  data ← lift request_json;
  x ← lift (get data "x" (PInt 0));
  y ← lift (get data "y" (PInt 0));
  '(screen_width, screen_height) ← size gui;
  click_x ← lift (mul_int x screen_width ≫= int);
  click_y ← lift (mul_int y screen_height ≫= int);
  moveTo gui click_x click_y (F64.dec 1 10);;
  click gui;;
  lift (jsonify {[ "status" := PStr "success"; "x" := PInt click_x;
                   "y" := PInt click_y ]} 200).

(** [handle_click()] *)
Definition handle_click (gui : pyautogui) (request_json : result pyval)
    : M G response :=
  try_exceptM (click_steps gui request_json) is_Exception
    (fun e => lift (jsonify {[ "status" := PStr "error";
                               "message" := PStr (str_of_exn e) ]} 500)).
End Click.
Arguments pyautogui G : clear implicits.

(** One coordinate of the target for the body [d]: the value under [k],
    or [0], times the extent of the display, as [handle_click] computes
    it. *)
Definition coordinate (d : gmap string pyval) (k : string) (extent : Z)
    : result Z :=
  mul_int (default (PInt 0) (d !! k)) extent ≫= int.

(** The target as [handle_click] computes it:
    [(int(x*width), int(y*height))]. *)
Definition click_target (x y : pyval) (width height : Z) : result (Z * Z) :=
  cx ← (mul_int x width ≫= int);
  cy ← (mul_int y height ≫= int);
  Ok (cx, cy).

(** The target as the specification words it:
    [(round(x*width), round(y*height))]. *)
Definition rounded_target (x y : pyval) (width height : Z) : result (Z * Z) :=
  cx ← (mul_int x width ≫= round);
  cy ← (mul_int y height ≫= round);
  Ok (cx, cy).


(** A pointer device for examples: a display of [width] x [height]
    that records what is injected and never fails. *)
Inductive gui_event :=
| Moved (x y : Z) (duration : spec_float)
| Clicked.

Definition recording_gui (width height : Z) : pyautogui (list gui_event) :=
  {| size := fun log => (Ok (width, height), log);
     moveTo := fun x y duration log => (Ok (), (log ++ [Moved x y duration])%list);
     click := fun log => (Ok (), (log ++ [Clicked])%list) |}.

Section Screen.
Context {image : Type}.

(** The answers of PIL during one request: [ImageGrab.grab()],
    [img.save(buf, format='JPEG', quality=q)] followed by
    [buf.getvalue()] (no [quality] is [None]), [Image.new(mode, size,
    color)] and [ImageDraw.Draw(img).text(xy, text, fill)]. *)
Record pil := mkPil {
  grab : result image;
  save_jpeg : image -> option Z -> result (list Byte.byte);
  new : string -> Z * Z -> string -> result image;
  text : image -> Z * Z -> string -> string -> result image
}.

Definition default_quality : Z := 70.

(** [max(10, min(100, quality))] *)
Definition clamp (quality : Z) : Z := Z.max 10 (Z.min 100 quality).

(** Lines 352-359: the red 800x600 picture with the failure text,
    encoded with the encoder's own default quality. *)
Definition error_image (env : pil) (e : exn) : result (list Byte.byte) :=
  img ← new env "RGB" (800, 600) "red";
  img ← text env img (10, 10) ("截图失败: " ++ str_of_exn e) "white";
  save_jpeg env img None.

(** [Response(img_bytes, mimetype='image/jpeg')] *)
Definition jpeg (b : list Byte.byte) : response :=
  mkResponse 200 "image/jpeg" (Bytes b).

(** [screen()]; [args] is [request.args]. *)
Definition screen (env : pil) (args : gmap string string) : result response :=
  let mode := default "stream" (args !! "mode") in
  quality ← match args !! "q" with
            | Some s => PyStr.int s
            | None => Ok default_quality
            end;
  try_except
    (screenshot ← grab env;
     img_bytes ← save_jpeg env screenshot (Some (clamp quality));
     Ok (jpeg img_bytes))
    is_Exception
    (fun e => img_bytes ← error_image env e; Ok (jpeg img_bytes)).

(** [GET /screen] as the client sees it. *)
Definition get_screen (env : pil) (args : gmap string string) : response :=
  flask_dispatch (screen env args).
End Screen.
Arguments pil image : clear implicits.

(** An imaging library for examples: a picture is a description, the
    encoder writes the quality (75 when none is given) in front of it,
    and [grab] answers as told. *)
Definition sample_pil (grabbed : result string) : pil string :=
  {| grab := grabbed;
     save_jpeg := fun img quality =>
       Ok (default Byte.x00 (Byte.of_N (Z.to_N (default 75 quality)))
             :: list_byte_of_string img);
     new := fun mode size color => Ok color;
     text := fun img xy s fill => Ok (img ++ "|" ++ s)%string |}.

End ShowPC.

(** ** Sample inputs *)

Module Samples.
Import ShowScreen ShowPC.

(** Three frames, told apart by their names. *)
Definition F1 : string := "F1".
Definition F2 : string := "F2".
Definition F3 : string := "F3".

(** The bridge answers of a healthy device, and of a machine without
    the bridge executable. *)
Definition wm_size_ok : result (CompletedProcess string) :=
  Ok (mkProc 0 "Physical size: 1080x2400").
Definition png : list Byte.byte := [Byte.x89; Byte.x50; Byte.x4e; Byte.x47].
Definition healthy := sample_bridge wm_size_ok (Ok (mkProc 0 png)).
Definition no_adb :=
  sample_bridge (Raise (Exn FileNotFoundError "[WinError 2]"))
                (Raise (Exn FileNotFoundError "[WinError 2]")).

(** A pass of the display loop that began at [t = 100.0] and had
    rendered by [100.03125], with no key pressed. *)
Definition sample_tick : tick :=
  mkTick (F64.of_bin 100 0) (F64.of_bin 3201 (-5)) (F64.of_bin 3201 (-5)) (-1).
Definition sample_display : display_state string :=
  mkDisplay (mkThread 480 (mkQueue 2 [F2; F3]) true true) 0 (F64.of_bin 100 0).

(** The double [0.5]. *)
Definition half : spec_float := F64.of_bin 1 (-1).

(** The display of the coordinate scenario, 1080x2400. *)
Definition phone := recording_gui 1080 2400.

(** The JSON body [{"x": x, "y": y}]. *)
Definition body (x y : spec_float) : pyval :=
  PDict {[ "x" := PFloat x; "y" := PFloat y ]}.

(** A desktop that can be grabbed, and one that cannot. *)
Definition desktop := sample_pil (Ok "desktop").
Definition broken := sample_pil (Raise (Exn OSError "screen grab failed")).

(** The query string [?q=raw]. *)
Definition q_is (raw : string) : gmap string string := {[ "q" := raw ]}.
End Samples.

(** ** [showscreen.py]: the session around the capture thread *)

Module ShowScreenApp.
Import ShowScreen.

(** [xs[i]] for an int [i]: a negative index counts from the end. *)
Definition getitem {A} (xs : list A) (i : Z) : result A :=
  let n := Z.of_nat (length xs) in
  let j := if i <? 0 then i + n else i in
  if (0 <=? j) && (j <? n) then index xs (Z.to_nat j)
  else Raise (Exn IndexError "list index out of range").

(** The [resolutions] of [main]. *)
Definition resolutions : list Z := [360; 480; 640].

(** Lines 142-146 of [main]: [typed] is what [input(..)] returned or
    raised; the bare [except] takes every exception. *)
Definition selected_width (typed : result string) : result Z :=
  try_except
    (choice ← (fun n => n - 1) <$> (typed ≫= PyStr.int);
     getitem resolutions
       (if (0 <=? choice) && (choice <? Z.of_nat (length resolutions))
        then choice else 0))
    (fun _ => true)
    (fun _ => Ok 480).

(** [target_fps = 15] *)
Definition main_target_fps : Z := 15.

Section Session.
Context {frame : Type}.

(** *** [run] at the grain of the shared objects

    Where the producer stands in [run], between two of its operations on
    what it shares with the other threads, the flag and the queue. *)
Inductive point :=
| AtWhile                          (* line 19: about to test [self.running] *)
| AtCapture                        (* line 21 *)
| AtFull (f : frame)               (* line 24: about to ask [full()] *)
| AtGetNowait (f : frame)          (* line 26 *)
| AtPut (f : frame)                (* line 29 *)
| AtSleep (seconds : spec_float)   (* line 31 or 33 *)
| Returned.                        (* [run] is over *)

Record session := mkSession {
  s_thread : ScreenCaptureThread frame;
  s_at : point;
  s_trace : list event
}.

(** One operation of the producer; [cap] is what
    [get_screenshot_with_size] does when the producer is at line 21. *)
Definition producer_step (cap : result (option frame)) (s : session) : session :=
  let self := s_thread s in
  match s_at s with
  | AtWhile =>
      mkSession self (if running self then AtCapture else Returned) (s_trace s)
  | AtCapture =>
      match cap with
      | Ok (Some f) => mkSession self (AtFull f) (s_trace s)
      | Ok None => mkSession self (AtSleep short_sleep) (s_trace s)
      | Raise e =>
          mkSession self (if is_Exception e then AtSleep long_sleep else Returned)
            (s_trace s)
      end
  | AtFull f =>
      mkSession self (if full (frame_queue self) then AtGetNowait f else AtPut f)
        (s_trace s)
  | AtGetNowait f =>
      match get_nowait (frame_queue self) with
      | Ok (_, q) => mkSession (with_queue self q) (AtPut f) (s_trace s)
      | Raise e =>
          mkSession self
            (if is_Empty e then AtPut f
             else if is_Exception e then AtSleep long_sleep else Returned)
            (s_trace s)
      end
  | AtPut f =>
      match put f (frame_queue self) with
      | Some q => mkSession (with_queue self q) (AtSleep short_sleep) (s_trace s)
      | None => s
      end
  | AtSleep seconds => mkSession self AtWhile (s_trace s ++ [Sleep seconds])
  | Returned => s
  end.

(** The producer's operations interleaved with the calls of the display
    loop on the same object. *)
Definition session_step (a : action frame) (s : session) : session :=
  match a with
  | ThreadStep cap => producer_step cap s
  | CallStop => mkSession (stop (s_thread s)) (s_at s) (s_trace s)
  | CallGetLatestFrame =>
      match get_latest_frame (s_thread s) with
      | Ok (_, self') => mkSession self' (s_at s) (s_trace s)
      | Raise _ => s
      end
  end.

Definition session_exec (acts : list (action frame)) (s : session) : session :=
  foldl (fun s a => session_step a s) s acts.

(** [capture_thread.start()] *)
Definition session_start (self : ScreenCaptureThread frame) : session :=
  mkSession self AtWhile [].

(** The frame that the call [a] of [get_latest_frame] hands out. *)
Definition handed_out (a : action frame) (s : session) : list frame :=
  match a with
  | CallGetLatestFrame =>
      match get_latest_frame (s_thread s) with
      | Ok (Some f, _) => [f]
      | _ => []
      end
  | _ => []
  end.

(** The frame that the producer's operation [a] gets from the capture. *)
Definition captured_by (a : action frame) (s : session) : list frame :=
  match a, s_at s with
  | ThreadStep (Ok (Some f)), AtCapture => [f]
  | _, _ => []
  end.

(** The frames that the [get_latest_frame] calls of [acts] hand out, in
    the order of the calls. *)
Fixpoint delivered (acts : list (action frame)) (s : session) : list frame :=
  match acts with
  | [] => []
  | a :: acts' => handed_out a s ++ delivered acts' (session_step a s)
  end.

(** The frames that the producer captures during [acts], in the order of
    the passes. *)
Fixpoint captured_frames (acts : list (action frame)) (s : session) : list frame :=
  match acts with
  | [] => []
  | a :: acts' => captured_by a s ++ captured_frames acts' (session_step a s)
  end.

(** The frame that the producer has captured and not yet put. *)
Definition in_hand (p : point) : list frame :=
  match p with
  | AtFull f | AtGetNowait f | AtPut f => [f]
  | _ => []
  end.

(** The frames that are queued or in the producer's hand, oldest first. *)
Definition waiting (s : session) : list frame :=
  items (frame_queue (s_thread s)) ++ in_hand (s_at s).

(** What the producer knows about the queue where it stands. *)
Definition queue_ready (s : session) : Prop :=
  bounded (frame_queue (s_thread s))
  /\ match s_at s with
     | AtGetNowait _ => 0 < maxsize (frame_queue (s_thread s))
     | AtPut _ => full (frame_queue (s_thread s)) = false
     | Returned => running (s_thread s) = false
     | _ => True
     end.

(** The operations that a producer with the flag down needs at most to
    leave [run], when [put] does not make it wait. *)
Definition steps_to_return (p : point) : nat :=
  match p with
  | AtCapture => 6
  | AtFull _ => 5
  | AtGetNowait _ => 4
  | AtPut _ => 3
  | AtSleep _ => 2
  | AtWhile => 1
  | Returned => 0
  end.

(** *** [display_optimized_window]

    What happens while the window is open, in the order in which the
    thread object is touched: an operation of the producer, or a pass of
    the display loop with its clock readings and its key. *)
Inductive turn :=
| Producer (cap : result (option frame))
| Pass (clk : tick).

(** How the [while True] of lines 94-125 ends. *)
Inductive ending :=
| KeyQ               (* the [break] of line 125 *)
| Raised (e : exn)   (* an exception leaves the [try] block *)
| Open.              (* still looping when the turns are used up *)

(** The thread with its producer, and the locals [frame_count] and
    [last_fps_update] of the display loop. *)
Record window := mkWindow {
  w_session : session;
  w_frame_count : Z;
  w_last_fps_update : spec_float
}.

(** Lines 94-125. A pass touches the thread object once, in its call of
    [get_latest_frame] at line 98, before anything in the pass can
    raise. *)
Fixpoint display_loop (target_width target_fps : Z) (turns : list turn)
    (w : window) : ending * window :=
  match turns with
  | [] => (Open, w)
  | Producer cap :: turns' =>
      display_loop target_width target_fps turns'
        (mkWindow (producer_step cap (w_session w))
           (w_frame_count w) (w_last_fps_update w))
  | Pass clk :: turns' =>
      let called := session_step CallGetLatestFrame (w_session w) in
      match display_pass target_width target_fps clk
              (mkDisplay (s_thread (w_session w))
                 (w_frame_count w) (w_last_fps_update w)) with
      | Ok (st, _, quit) =>
          let w' := mkWindow called (frame_count st) (last_fps_update st) in
          if quit then (KeyQ, w')
          else display_loop target_width target_fps turns' w'
      | Raise e =>
          (Raised e, mkWindow called (w_frame_count w) (w_last_fps_update w))
      end
  end.

(** What the [finally] block does besides [stop()]. *)
Inductive closing :=
| Join (timeout : Z)
| DestroyAllWindows.

(** [display_optimized_window(target_width, target_fps)] from line 86
    on, after the window was made: the thread is created with the default
    queue size and started, [start_time] is the first reading of the
    clock, and the [finally] block of lines 127-130 runs however the loop
    ends. *)
Definition display_optimized_window (target_width target_fps : Z)
    (start_time : spec_float) (turns : list turn)
    : ending * session * list closing :=
  let capture_thread := init target_width default_max_queue_size in
  let '(e, w) :=
    display_loop target_width target_fps turns
      (mkWindow (session_start capture_thread) 0 start_time) in
  match e with
  | Open => (Open, w_session w, [])
  | _ => (e, session_step CallStop (w_session w), [Join 1; DestroyAllWindows])
  end.

(** The calls on the thread object that the turns amount to, as long as
    the loop goes on. *)
Definition turn_action (t : turn) : action frame :=
  match t with
  | Producer cap => ThreadStep cap
  | Pass _ => CallGetLatestFrame
  end.

(** The key of the pass is [q]. *)
Definition quits (t : turn) : bool :=
  match t with
  | Producer _ => false
  | Pass clk => Z.land (key clk) 255 =? 113
  end.

(** [main()] from line 142 on: the width chosen from what was typed, and
    the window at 15 frames per second. *)
Definition main (typed : result string) (start_time : spec_float)
    (turns : list turn) : result (ending * session * list closing) :=
  width ← selected_width typed;
  Ok (display_optimized_window width main_target_fps start_time turns).

(** What a queue with [maxsize] keeps of the frames [l] put into it in
    turn: all of them when it is unbounded, else the newest [maxsize]. *)
Definition kept (maxsize : Z) (l : list frame) : list frame :=
  if 0 <? maxsize then newest (Z.to_nat maxsize) l else l.

(** The frames among the capture results [caps]. *)
Definition frames_of (caps : list (result (option frame))) : list frame :=
  omap (fun cap => match cap with Ok (Some f) => Some f | _ => None end) caps.

End Session.
Arguments point frame : clear implicits.
Arguments session frame : clear implicits.
Arguments turn frame : clear implicits.
Arguments window frame : clear implicits.
End ShowScreenApp.

(** ** [showPC.py]: the video stream *)

Module ShowPCStream.
Import ShowPC.

(** [b'\r\n'] *)
Definition crlf : list Byte.byte := [Byte.x0d; Byte.x0a].

(** The bytes of an ASCII literal. *)
Definition ascii_bytes (s : string) : list Byte.byte := list_byte_of_string s.

(** Lines 325-326: what one [yield] of [generate_screenshot] hands to
    the response, for the encoded picture [img_byte_arr]. *)
Definition stream_part (img_byte_arr : list Byte.byte) : list Byte.byte :=
  ((ascii_bytes "--frame" ++ crlf)
     ++ (ascii_bytes "Content-Type: image/jpeg" ++ crlf ++ crlf))
    ++ img_byte_arr ++ crlf.

(** What the generator does that the outside can observe. *)
Inductive stream_event :=
| Yield (part : list Byte.byte)
| StreamSleep (seconds : spec_float)
| Print (line : string).

Section Stream.
Context {image : Type}.

(** The picture of one pass: [ImageGrab.grab()] saved as JPEG with
    [quality=85]. *)
Definition encoded (env : pil image) : result (list Byte.byte) :=
  screenshot ← grab env;
  save_jpeg env screenshot (Some 85).

(** One pass through the [while True] of [generate_screenshot], with a
    client that takes the part and asks for the next one. The sleeps
    are [time.sleep(0.1)] and [time.sleep(1)]. *)
Definition generate_pass (env : pil image) : result (list stream_event) :=
  try_except
    (img_byte_arr ← encoded env;
     Ok [Yield (stream_part img_byte_arr); StreamSleep (F64.dec 1 10)])
    is_Exception
    (fun e => Ok [Print ("截图错误: " ++ str_of_exn e); StreamSleep F64.one]).

(** [generate_screenshot()] over the passes that a client lets it make;
    [envs] gives the imaging library's answers of each pass. *)
Fixpoint generate_screenshot (envs : list (pil image)) : result (list stream_event) :=
  match envs with
  | [] => Ok []
  | env :: envs' =>
      evs ← generate_pass env;
      rest ← generate_screenshot envs';
      Ok (evs ++ rest)%list
  end.

(** The parts that reach the client, and the pauses between the passes. *)
Definition yielded (evs : list stream_event) : list (list Byte.byte) :=
  omap (fun ev => match ev with Yield part => Some part | _ => None end) evs.

Definition slept (evs : list stream_event) : list spec_float :=
  omap (fun ev => match ev with StreamSleep d => Some d | _ => None end) evs.

Definition printed (evs : list stream_event) : list string :=
  omap (fun ev => match ev with Print line => Some line | _ => None end) evs.

End Stream.

(** [screen_video()]: the mimetype it gives the streamed response. *)
Definition screen_video_mimetype : string :=
  "multipart/x-mixed-replace; boundary=frame".

End ShowPCStream.

(** ** [showPC.py]: the address of the server *)

Module ShowPCAddress.

Section Address.
(** [W] is the state of the operating system's sockets, [sock] a
    socket object. *)
Context {W sock : Type}.

(** [socket.socket(family, type)], [s.connect(address)],
    [s.getsockname()] and [s.close()]. *)
Record sockets := mkSockets {
  socket : string -> string -> M W sock;
  connect : sock -> string * Z -> M W ();
  getsockname : sock -> M W (string * Z);
  close : sock -> M W ()
}.

(** The [try] block of [get_local_ip]. *)
Definition probe (net : sockets) : M W string :=
  s ← socket net "AF_INET" "SOCK_DGRAM";
  connect net s ("8.8.8.8", 80);;
  name ← getsockname net s;
  let ip := name.1 in
  close net s;;
  mret ip.

(** [get_local_ip()]: the bare [except] takes every exception. *)
Definition get_local_ip (net : sockets) : M W string :=
  try_exceptM (probe net) (fun _ => true) (fun _ => mret "127.0.0.1").
End Address.
Arguments sockets W sock : clear implicits.
End ShowPCAddress.

(** ** Sample inputs of the session *)

Module SessionSamples.
Import ShowScreen ShowScreenApp Samples.

(** A pass like [sample_tick] during which [q] was pressed. *)
Definition quit_tick : tick :=
  mkTick (F64.of_bin 100 0) (F64.of_bin 3201 (-5)) (F64.of_bin 3201 (-5)) 113.

(** The producer captures [F1] and puts it (its other operations do not
    look at the capture), the display loop shows it, and in the next pass
    the key is [q]. *)
Definition sample_turns : list (turn string) :=
  [Producer unavailable; Producer (captured F1); Producer unavailable;
   Producer unavailable; Pass sample_tick; Producer unavailable; Pass quit_tick].
End SessionSamples.

(** * Properties *)

(** ** The frame queue under [run] *)

Module QueueFacts.
Import ShowScreen.
Section Facts.
Context {frame : Type}.
Implicit Types (self : ScreenCaptureThread frame) (f : frame) (fs l : list frame).

Lemma newest_length N l : (length (newest N l) <= N)%nat.
Proof. unfold newest. rewrite length_drop. lia. Qed.

Lemma newest_short N l : (length l <= N)%nat -> newest N l = l.
Proof.
  intros H. unfold newest. replace (length l - N)%nat with 0%nat by lia.
  apply drop_0.
Qed.

Lemma newest_app N l k : newest N (newest N l ++ k) = newest N (l ++ k).
Proof.
  unfold newest. destruct (decide (length l <= N)%nat) as [Hle|Hgt].
  - replace (length l - N)%nat with 0%nat by lia. by rewrite drop_0.
  - rewrite <- (drop_app_le l k (length l - N)) by lia.
    rewrite drop_drop. f_equal. rewrite length_drop, !length_app. lia.
Qed.

Lemma full_true (q : Queue frame) :
  full q = true <-> 0 < maxsize q <= Z.of_nat (length (items q)).
Proof.
  unfold full, qsize. rewrite andb_true_iff, Z.ltb_lt, Z.leb_le. tauto.
Qed.

Lemma full_false (q : Queue frame) :
  full q = false <-> maxsize q <= 0 \/ Z.of_nat (length (items q)) < maxsize q.
Proof.
  unfold full, qsize. rewrite andb_false_iff, Z.ltb_ge, Z.leb_gt. tauto.
Qed.

(** Lines 24-28 never raise: a full queue loses its head. *)
Lemma discard_old_spec (q : Queue frame) :
  discard_old q =
    Ok (if full q then mkQueue (maxsize q) (tail (items q)) else q).
Proof.
  unfold discard_old, get_nowait. destruct (full q); [|done].
  destruct q as [m [|x rest]]; reflexivity.
Qed.

(** A pass with a captured frame, on a bounded queue that respects its
    bound: the frame goes in, and the oldest entry goes out when the
    queue was full. *)
Lemma run_body_captured self N l f :
  (1 <= N)%nat -> holds self N l -> (length l <= N)%nat ->
  run_body (captured f) self =
    Ok (Completed
          (with_queue self (mkQueue (Z.of_nat N) (newest N (l ++ [f]))))
          [Sleep short_sleep]).
Proof.
  intros HN [Hmax Hitems] Hlen.
  unfold run_body, captured. cbn [mbind result_bind].
  rewrite discard_old_spec. cbn [mbind result_bind].
  destruct (full (frame_queue self)) eqn:Hfull.
  - apply full_true in Hfull. rewrite Hmax, Hitems in Hfull.
    destruct l as [|x rest]; [simpl in Hfull; lia|]. simpl in Hfull, Hlen.
    rewrite Hmax, Hitems. unfold put.
    replace (full _) with false
      by (symmetry; apply full_false; simpl; lia).
    cbn [try_except maxsize items tail]. do 4 f_equal.
    unfold newest. rewrite length_app. simpl.
    by replace (S (length rest + 1) - N)%nat with 1%nat by lia.
  - apply full_false in Hfull. rewrite Hmax, Hitems in Hfull.
    unfold put.
    replace (full _) with false
      by (symmetry; apply full_false; rewrite Hmax, Hitems; lia).
    rewrite Hmax, Hitems. cbn [try_except]. do 4 f_equal.
    rewrite newest_short by (rewrite length_app; simpl; lia).
    reflexivity.
Qed.

Lemma holds_with_queue self N l :
  holds (with_queue self (mkQueue (Z.of_nat N) l)) N l.
Proof. by split. Qed.

(** Any number of captured frames in a row. *)
Lemma run_captured N fs : forall self l trace,
  (1 <= N)%nat -> running self = true -> holds self N l ->
  (length l <= N)%nat ->
  run (captured <$> fs) self trace =
    Ok (with_queue self (mkQueue (Z.of_nat N) (newest N (l ++ fs))),
        (trace ++ replicate (length fs) (Sleep short_sleep))%list,
        AtLoopHead).
Proof.
  induction fs as [|f fs IH]; intros self l trace HN Hrun Hq Hlen.
  - simpl. rewrite Hrun, !app_nil_r, newest_short by done.
    destruct Hq as [Hmax Hit]. destruct self as [w [m it] r d].
    simpl in *. by subst.
  - rewrite fmap_cons. cbn [run]. rewrite Hrun.
    rewrite (run_body_captured self N l f) by done.
    cbn [mbind result_bind].
    rewrite (IH _ (newest N (l ++ [f])) _ HN);
      [| done | apply holds_with_queue | apply newest_length].
    rewrite newest_app, <- !app_assoc. reflexivity.
Qed.

(** With [max_queue_size <= 0] the queue is never full: [run] keeps
    every frame. *)
Lemma run_body_captured_unbounded self f :
  maxsize (frame_queue self) <= 0 ->
  run_body (captured f) self =
    Ok (Completed
          (with_queue self
             (mkQueue (maxsize (frame_queue self))
                      (items (frame_queue self) ++ [f])))
          [Sleep short_sleep]).
Proof.
  intros Hmax. unfold run_body, captured. cbn [mbind result_bind].
  rewrite discard_old_spec.
  assert (Hnf : full (frame_queue self) = false) by (apply full_false; lia).
  rewrite Hnf. cbn [mbind result_bind]. unfold put. by rewrite Hnf.
Qed.

Lemma run_captured_unbounded fs : forall self trace,
  maxsize (frame_queue self) <= 0 -> running self = true ->
  run (captured <$> fs) self trace =
    Ok (with_queue self
          (mkQueue (maxsize (frame_queue self)) (items (frame_queue self) ++ fs)),
        (trace ++ replicate (length fs) (Sleep short_sleep))%list,
        AtLoopHead).
Proof.
  induction fs as [|f fs IH]; intros self trace Hmax Hrun.
  - simpl. rewrite Hrun, !app_nil_r.
    by destruct self as [w [m it] r d].
  - rewrite fmap_cons. cbn [run]. rewrite Hrun.
    rewrite run_body_captured_unbounded by done.
    cbn [mbind result_bind]. rewrite IH by done.
    cbn [with_queue frame_queue maxsize items target_width running daemon].
    by rewrite <- !app_assoc.
Qed.

(** [get_latest_frame] hands out the head of the queue. *)
Lemma get_latest_frame_head self x rest :
  items (frame_queue self) = x :: rest ->
  get_latest_frame self =
    Ok (Some x, with_queue self (mkQueue (maxsize (frame_queue self)) rest)).
Proof.
  intros H. unfold get_latest_frame, get_nowait. by rewrite H.
Qed.

Lemma get_latest_frame_empty self :
  items (frame_queue self) = [] -> get_latest_frame self = Ok (None, self).
Proof.
  intros H. unfold get_latest_frame, get_nowait. by rewrite H.
Qed.

(** C1. Queue bound: with capacity [N >= 1], after [N + k] passes that
    each captured a frame and no pop in between, the queue holds
    exactly the [N] frames pushed last, the [(k+1)]-th to the
    [(N+k)]-th; after every prefix of the passes the queue holds at
    most [N] frames; and a pass that finds the queue at capacity
    removes exactly its oldest entry before it inserts. *)
Theorem queue_bound (N k : nat) (target_width : Z) fs :
  (1 <= N)%nat -> length fs = (N + k)%nat ->
  (exists self',
     run (captured <$> fs) (init target_width (Z.of_nat N)) []
       = Ok (self', replicate (N + k) (Sleep short_sleep), AtLoopHead)
     /\ items (frame_queue self') = drop k fs
     /\ length (items (frame_queue self')) = N)
  /\ (forall j, exists selfj trace,
        run (captured <$> take j fs) (init target_width (Z.of_nat N)) []
          = Ok (selfj, trace, AtLoopHead)
        /\ (length (items (frame_queue selfj)) <= N)%nat)
  /\ (forall self x rest f,
        holds self N (x :: rest) -> length (x :: rest) = N ->
        exists self',
          run_body (captured f) self = Ok (Completed self' [Sleep short_sleep])
          /\ items (frame_queue self') = (rest ++ [f])%list).
Proof.
  intros HN Hlen.
  assert (Hinit : holds (frame:=frame) (init target_width (Z.of_nat N)) N [])
    by done.
  split; [|split].
  - eexists. rewrite (run_captured N fs _ [] []) by (done || simpl; lia).
    rewrite Hlen. split; [reflexivity|].
    cbn [with_queue frame_queue items app]. unfold newest.
    rewrite length_drop, Hlen.
    replace (N + k - N)%nat with k by lia. split; [done | lia].
  - intros j. do 2 eexists.
    rewrite (run_captured N (take j fs) _ [] []) by (done || simpl; lia).
    split; [reflexivity|]. cbn [with_queue frame_queue items app].
    apply newest_length.
  - intros self x rest f Hq Hfull. eexists.
    rewrite (run_body_captured self N (x :: rest) f) by (done || lia).
    split; [reflexivity|]. cbn [with_queue frame_queue items].
    unfold newest. rewrite length_app. simpl in *.
    by replace (S (length rest + 1) - N)%nat with 1%nat by lia.
Qed.

(** C2, at the default capacity. After the frames [F1], [F2], [F3] were
    pushed into the queue of two with no pop in between, [F1] is gone
    and the queue holds [F2] and [F3] (the discard is drop-oldest); one
    [get_latest_frame] then returns [F2], the oldest frame still queued,
    and leaves [F3], the latest, behind. With capacity one the same pop
    returns [F3]; with [max_queue_size = 0], which makes the queue
    unbounded, nothing is discarded and it returns [F1]. *)
Theorem pop_after_three_pushes (target_width : Z) (F1 F2 F3 : frame) :
  let pushed N := run (captured <$> [F1; F2; F3]) (init target_width N) [] in
  let holding N l := with_queue (init target_width N) (mkQueue N l) in
  let slept := replicate 3 (Sleep short_sleep) in
  (pushed 2 = Ok (holding 2 [F2; F3], slept, AtLoopHead)
   /\ get_latest_frame (holding 2 [F2; F3]) = Ok (Some F2, holding 2 [F3]))
  /\ (pushed 1 = Ok (holding 1 [F3], slept, AtLoopHead)
      /\ get_latest_frame (holding 1 [F3]) = Ok (Some F3, holding 1 []))
  /\ (pushed 0 = Ok (holding 0 [F1; F2; F3], slept, AtLoopHead)
      /\ get_latest_frame (holding 0 [F1; F2; F3]) = Ok (Some F1, holding 0 [F2; F3])).
Proof.
  intros pushed holding slept. unfold pushed, holding, slept.
  split; [|split].
  - by rewrite (run_captured 2 [F1; F2; F3] _ [] []) by (done || simpl; lia).
  - by rewrite (run_captured 1 [F1; F2; F3] _ [] []) by (done || simpl; lia).
  - by rewrite (run_captured_unbounded [F1; F2; F3] _ []) by done.
Qed.
End Facts.
End QueueFacts.

(** ** The capture loop: sleeps, failures, cancellation *)

Module CaptureFacts.
Import ShowScreen.
Section Facts.
Context {frame : Type}.
Implicit Types (self : ScreenCaptureThread frame) (env : bridge frame)
  (m : machine frame) (acts : list (action frame)).

Lemma try_except_Exception {A} (body : result A) (h : exn -> result A) :
  try_except body is_Exception h = match body with Ok a => Ok a | Raise e => h e end.
Proof. by destruct body. Qed.

(** The [except Exception] of [get_screenshot_with_size] leaves no
    exception to the caller. *)
Lemma get_screenshot_with_size_returns env (width : Z) :
  exists r, get_screenshot_with_size env width = Ok r.
Proof.
  unfold get_screenshot_with_size. rewrite try_except_Exception.
  destruct (screenshot_steps env width); eauto.
Qed.

(** C7. [get_screenshot_with_size] never raises to its caller: whatever
    the bridge and the decoder do, it returns a value; a failure of any
    step (the bridge call raising, as for a missing executable or a
    timeout, a size line that does not parse, a non-zero exit code of
    the screenshot command, bytes that do not decode) gives [None]; and
    it returns a frame exactly when every step succeeded. *)
Theorem capture_never_raises env (width : Z) :
  (exists r, get_screenshot_with_size env width = Ok r)
  /\ (forall img,
        get_screenshot_with_size env width = Ok (Some img)
        <-> steps_succeed env width img)
  /\ (forall e, screenshot_steps env width = Raise e ->
        get_screenshot_with_size env width = Ok None)
  /\ (forall e, run_text env [adb; "shell"; "wm"; "size"] = Raise e ->
        get_screenshot_with_size env width = Ok None)
  /\ (forall proc, run_text env [adb; "shell"; "wm"; "size"] = Ok proc ->
        (PyStr.contains "Physical size" (stdout proc) = false
         \/ (exists e, (PyStr.strip <$> index (PyStr.split ": " (stdout proc)) 1%nat)
                         ≫= (fun s => unpack2 (PyStr.int <$> PyStr.split "x" s))
                       = Raise e)) ->
        get_screenshot_with_size env width = Ok None)
  /\ (forall e, run_bytes env [adb; "exec-out"; "screencap"; "-p"] = Raise e ->
        get_screenshot_with_size env width = Ok None)
  /\ (forall shot, run_bytes env [adb; "exec-out"; "screencap"; "-p"] = Ok shot ->
        returncode shot <> 0 \/ imdecode env (stdout shot) = Ok None
        \/ (exists e, imdecode env (stdout shot) = Raise e) ->
        get_screenshot_with_size env width = Ok None).
Proof.
  split; [apply get_screenshot_with_size_returns|].
  unfold get_screenshot_with_size. rewrite try_except_Exception.
  split; [|split; [by intros e ->|]].
  - intros img. unfold steps_succeed, screenshot_steps. split.
    + destruct (run_text env _) as [proc|]; [|done]. cbn [mbind result_bind].
      destruct (PyStr.contains _ _) eqn:Hc; [|done].
      destruct (index _ _) as [field|] eqn:Hi; [|done].
      cbn [fmap result_fmap mbind result_bind].
      destruct (unpack2 _) as [[w h]|] eqn:Hu; [|done]. cbn [mbind result_bind].
      destruct (F64.truediv _ _) as [scale|] eqn:Hs; [|done].
      cbn [mbind result_bind].
      destruct (F64.int_mul h scale ≫= F64.to_int) as [height|] eqn:Hh; [|done].
      cbn [mbind result_bind].
      destruct (run_bytes env _) as [shot|] eqn:Hb; [|done].
      cbn [mbind result_bind].
      destruct (returncode shot =? 0) eqn:Hr; [|done].
      destruct (imdecode env _) as [[raw|]|] eqn:Hd; [|done|done].
      cbn [mbind result_bind].
      destruct (resize env raw _) as [img'|] eqn:Hz; [|done].
      cbn [mbind result_bind]. intros [= <-].
      exists proc, field, w, h, scale, height, shot, raw.
      apply Z.eqb_eq in Hr. by repeat split.
    + intros (proc & field & w & h & scale & height & shot & raw & H1 & H2 & H3
              & H4 & H5 & H6 & H7 & H8 & H9 & H10).
      rewrite H1. cbn [mbind result_bind]. rewrite H2, H3.
      cbn [fmap result_fmap mbind result_bind]. rewrite H4.
      cbn [mbind result_bind]. rewrite H5. cbn [mbind result_bind].
      rewrite H6. cbn [mbind result_bind]. rewrite H7. cbn [mbind result_bind].
      rewrite H8, H9. cbn [Z.eqb mbind result_bind]. by rewrite H10.
  - unfold screenshot_steps. split; [by intros e ->|]. split; [|split].
    + intros proc -> [Hc | [e He]]; cbn [mbind result_bind].
      * by rewrite Hc.
      * destruct (PyStr.contains _ _); [|done].
        destruct (index _ _) as [field|]; [|done].
        cbn [fmap result_fmap mbind result_bind] in *. by rewrite He.
    + intros e He. destruct (run_text env _) as [proc|]; [|done].
      cbn [mbind result_bind]. destruct (PyStr.contains _ _); [|done].
      destruct (_ <$> index _ _) as [field|]; [|done]. cbn [mbind result_bind].
      destruct (unpack2 _) as [[w h]|]; [|done]. cbn [mbind result_bind].
      destruct (F64.truediv _ _) as [scale|]; [|done]. cbn [mbind result_bind].
      destruct (F64.int_mul h scale ≫= F64.to_int) as [height|]; [|done].
      cbn [mbind result_bind]. by rewrite He.
    + intros shot Hshot Hfail. destruct (run_text env _) as [proc|]; [|done].
      cbn [mbind result_bind]. destruct (PyStr.contains _ _); [|done].
      destruct (_ <$> index _ _) as [field|]; [|done]. cbn [mbind result_bind].
      destruct (unpack2 _) as [[w h]|]; [|done]. cbn [mbind result_bind].
      destruct (F64.truediv _ _) as [scale|]; [|done]. cbn [mbind result_bind].
      destruct (F64.int_mul h scale ≫= F64.to_int) as [height|]; [|done].
      cbn [mbind result_bind]. rewrite Hshot. cbn [mbind result_bind].
      destruct Hfail as [Hr | [Hd | [e Hd]]].
      * apply Z.eqb_neq in Hr. by rewrite Hr.
      * rewrite Hd. by destruct (_ =? _).
      * rewrite Hd. by destruct (_ =? _).
Qed.

(** The body of the loop never raises, a completed pass sleeps exactly
    once, and no pass touches [running] or [daemon]. *)
Lemma run_body_cases (cap : result (option frame)) self :
  (exists self' d, run_body cap self = Ok (Completed self' [Sleep d])
      /\ running self' = running self /\ daemon self' = daemon self
      /\ (d = short_sleep \/ d = long_sleep))
  \/ (exists self' f, run_body cap self = Ok (BlockedInPut self')
      /\ cap = Ok (Some f)
      /\ running self' = running self /\ daemon self' = daemon self
      /\ put f (frame_queue self') = None).
Proof.
  unfold run_body. destruct cap as [[f|]|e]; cbn [mbind result_bind try_except].
  - rewrite QueueFacts.discard_old_spec. cbn [mbind result_bind].
    destruct (put f _) as [q1|] eqn:Hput; cbn [try_except].
    + left. exists (with_queue self q1), short_sleep. by auto.
    + right. eexists _, f. by repeat split.
  - left. exists self, short_sleep. by auto.
  - left. exists self, long_sleep. by auto.
Qed.

(** The two sleeps are the doubles of [0.01] and [0.1]. *)
Lemma sleep_values :
  short_sleep = S754_finite false 5764607523034235 (-59)
  /\ long_sleep = S754_finite false 7205759403792794 (-56).
Proof. split; reflexivity. Qed.

(** C6, the behaviour of the code. A pass whose capture was
    [Unavailable] ([get_screenshot_with_size] returned [None]) ends
    with the sleep of [0.01] s, the same as a pass that pushed a
    frame, and not with the sleep of [0.1] s: that one is taken only
    when an exception reaches the [except] of [run], which no result
    of [get_screenshot_with_size] makes happen. *)
Theorem unavailable_sleeps_short self env :
  run_body unavailable self = Ok (Completed self [Sleep short_sleep])
  /\ short_sleep <> long_sleep
  /\ (forall e, run_body (Raise e) self = Ok (Completed self [Sleep long_sleep]))
  /\ (forall self' d,
        run_body (get_screenshot_with_size env (target_width self)) self
          = Ok (Completed self' [Sleep d]) -> d = short_sleep).
Proof.
  split; [reflexivity|]. split; [by vm_compute|]. split; [reflexivity|].
  intros self' d.
  destruct (get_screenshot_with_size_returns env (target_width self)) as [r ->].
  unfold run_body. destruct r as [f|]; cbn [mbind result_bind try_except].
  - rewrite QueueFacts.discard_old_spec. cbn [mbind result_bind].
    destruct (put f _); cbn [try_except]; congruence.
  - congruence.
Qed.

Lemma get_latest_frame_flags self r self' :
  get_latest_frame self = Ok (r, self') ->
  running self' = running self /\ daemon self' = daemon self
  /\ maxsize (frame_queue self') = maxsize (frame_queue self)
  /\ (length (items (frame_queue self')) <= length (items (frame_queue self)))%nat.
Proof.
  unfold get_latest_frame, get_nowait.
  destruct (items (frame_queue self)) as [|x rest] eqn:Hit;
    cbn [mbind result_bind try_except is_Empty kind bool_decide decide_rel];
    intros [= <- <-]; rewrite ?Hit; simpl; repeat split; lia.
Qed.

Lemma after_stop_step s0 t0 (p0 : pc frame) m (a : action frame) :
  after_stop s0 t0 p0 m -> after_stop s0 t0 p0 (step a m).
Proof.
  intros (Hrun & Hst & evs & Htr & Hev). destruct a as [cap| |]; cbn [step].
  - unfold thread_step. destruct (m_pc m) as [| |f|] eqn:Hpc; cbn [in_pass] in Hev.
    + rewrite Hrun. split; [done|]. split; [done|]. exists evs. by split.
    + destruct Hev as [-> Hp0].
      destruct (run_body_cases cap (m_thread m))
        as [(self' & d & -> & Hr & _) | (self' & f & -> & -> & Hr & _)].
      * split; [cbn; congruence|]. split; [done|].
        exists [Sleep d]. cbn. rewrite Htr, Hp0, app_nil_r. by split.
      * split; [cbn; congruence|]. split; [done|]. exists []. by cbn.
    + destruct Hev as [-> Hp0]. destruct (put f _) as [q|].
      * split; [cbn; congruence|]. split; [done|].
        exists [Sleep short_sleep]. cbn. rewrite Htr, Hp0, app_nil_r. by split.
      * split; [done|]. split; [done|]. exists []. rewrite Hpc. by cbn.
    + split; [done|]. split; [done|]. exists evs. rewrite Hpc. by split.
  - split; [done|]. split; [done|]. exists evs. by split.
  - destruct (get_latest_frame (m_thread m)) as [[r self']|] eqn:Hget.
    + apply get_latest_frame_flags in Hget as (Hr & _).
      split; [cbn; congruence|]. split; [done|]. exists evs. by split.
    + split; [done|]. split; [done|]. exists evs. by split.
Qed.

Lemma after_stop_exec acts : forall s0 t0 (p0 : pc frame) (m : machine frame),
  after_stop s0 t0 p0 m -> after_stop s0 t0 p0 (exec acts m).
Proof.
  induction acts as [|a acts IH]; intros s0 t0 p0 m H; [done|].
  cbn [exec foldl]. apply IH. by apply after_stop_step.
Qed.

Lemma daemon_step m (a : action frame) :
  daemon (m_thread (step a m)) = daemon (m_thread m).
Proof.
  destruct a as [cap| |]; cbn [step]; [|done|].
  - unfold thread_step. destruct (m_pc m) as [| |f|]; try done.
    + by destruct (running _).
    + destruct (run_body_cases cap (m_thread m))
        as [(self' & d & -> & _ & Hd & _) | (self' & f & -> & -> & _ & Hd & _)];
        done.
    + by destruct (put f _).
  - destruct (get_latest_frame (m_thread m)) as [[r self']|] eqn:Hget; [|done].
    by apply get_latest_frame_flags in Hget as (_ & Hd & _).
Qed.

Lemma daemon_exec acts : forall m : machine frame,
  daemon (m_thread (exec acts m)) = daemon (m_thread m).
Proof.
  induction acts as [|a acts IH]; intros m; [done|].
  cbn [exec foldl]. etrans; [apply IH|]. apply daemon_step.
Qed.

(** On a queue within its bound the body never waits in [put], and it
    leaves the queue within its bound. *)
Lemma run_body_bounded (cap : result (option frame)) self :
  bounded (frame_queue self) ->
  exists self' d, run_body cap self = Ok (Completed self' [Sleep d])
    /\ running self' = running self /\ bounded (frame_queue self').
Proof.
  intros Hb. unfold run_body.
  destruct cap as [[f|]|e]; cbn [mbind result_bind try_except]; [|by eauto..].
  rewrite QueueFacts.discard_old_spec. cbn [mbind result_bind]. unfold put.
  destruct (full (frame_queue self)) eqn:Hfull.
  - apply QueueFacts.full_true in Hfull.
    destruct (frame_queue self) as [mx [|x rest]] eqn:Hq;
      cbn [maxsize items tail length] in *; [lia|].
    assert (full (mkQueue mx rest) = false) as ->.
    { apply QueueFacts.full_false. destruct Hb; simpl in *; lia. }
    cbn [try_except]. eexists _, _. split; [done|]. split; [done|].
    right. cbn. rewrite length_app. destruct Hb; simpl in *; lia.
  - rewrite Hfull. cbn [try_except]. eexists _, _. split; [done|].
    split; [done|]. apply QueueFacts.full_false in Hfull.
    destruct Hfull; [by left|]. right. cbn. rewrite length_app. simpl. lia.
Qed.

Lemma exit_step m (a : action frame) :
  running (m_thread m) = false -> bounded (frame_queue (m_thread m)) ->
  waiting_in_put (m_pc m) = false ->
  running (m_thread (step a m)) = false
  /\ bounded (frame_queue (m_thread (step a m)))
  /\ waiting_in_put (m_pc (step a m)) = false
  /\ (steps_to_exit (m_pc (step a m))
       <= steps_to_exit (m_pc m) - (if is_thread_step a then 1 else 0))%nat.
Proof.
  intros Hrun Hb Hw. destruct a as [cap| |]; cbn [step is_thread_step].
  - unfold thread_step. destruct (m_pc m) as [| |f|] eqn:Hpc; try done.
    + rewrite Hrun. cbn. by repeat split; try lia.
    + destruct (run_body_bounded cap (m_thread m) Hb) as (self' & d & -> & Hr & Hb').
      cbn. repeat split; try done; try lia. congruence.
    + rewrite Hpc. cbn. by repeat split; try lia.
  - cbn. repeat split; try done. lia.
  - destruct (get_latest_frame (m_thread m)) as [[r self']|] eqn:Hget.
    + apply get_latest_frame_flags in Hget as (Hr & _ & Hm & Hl).
      cbn. repeat split; try done; try lia; [congruence|].
      unfold bounded in *. rewrite Hm. lia.
    + repeat split; try done. lia.
Qed.

Lemma exit_exec acts : forall m : machine frame,
  running (m_thread m) = false -> bounded (frame_queue (m_thread m)) ->
  waiting_in_put (m_pc m) = false ->
  (steps_to_exit (m_pc (exec acts m))
   <= steps_to_exit (m_pc m) - thread_steps acts)%nat.
Proof.
  induction acts as [|a acts IH]; intros m Hrun Hb Hw.
  - cbn. lia.
  - cbn [exec foldl].
    destruct (exit_step m a Hrun Hb Hw) as (Hr' & Hb' & Hw' & Hle).
    specialize (IH _ Hr' Hb' Hw'). unfold exec in IH.
    unfold thread_steps in *. rewrite filter_cons.
    destruct a; cbn [is_thread_step] in *;
      (case_decide; [|try done]); cbn [length] in *; try lia; try done.
Qed.

(** C9. Cancellation is cooperative. [stop] only lowers the flag: the
    program counter, the queue and the trace of the producer are as
    before. Whatever the threads do afterwards, in any interleaving,
    the flag stays down, the producer begins no further pass, and it
    completes at most the pass that was in progress (the trace grows
    by at most that pass's one sleep, and by nothing when the producer
    was at the loop head). A producer at the loop head with the flag
    down leaves the loop at its next step, and with a queue within its
    bound the producer has left [run] after two of its steps. The
    thread object is created with [daemon = True], and nothing changes
    that. *)
Theorem cooperative_stop m acts (target_width max_queue_size : Z) :
  let m1 := step CallStop m in
  let m2 := exec acts m1 in
  (running (m_thread m1) = false /\ m_pc m1 = m_pc m
   /\ m_trace m1 = m_trace m /\ m_started m1 = m_started m
   /\ frame_queue (m_thread m1) = frame_queue (m_thread m))
  /\ running (m_thread m2) = false
  /\ m_started m2 = m_started m
  /\ (exists evs, m_trace m2 = (m_trace m ++ evs)%list
        /\ (length evs <= if in_pass (m_pc m) then 1 else 0)%nat)
  /\ (forall cap, m_pc m2 = LoopHead ->
        step (ThreadStep cap) m2
          = mkMachine (m_thread m2) Exited (m_trace m2) (m_started m2))
  /\ (bounded (frame_queue (m_thread m)) -> waiting_in_put (m_pc m) = false ->
      (2 <= thread_steps acts)%nat -> m_pc m2 = Exited)
  /\ daemon (init (frame:=frame) target_width max_queue_size) = true
  /\ daemon (m_thread m2) = daemon (m_thread m).
Proof.
  intros m1 m2.
  assert (H1 : after_stop (m_started m) (m_trace m) (m_pc m) m1).
  { split; [done|]. split; [done|]. exists []. cbn. rewrite app_nil_r.
    split; [done|]. by destruct (in_pass (m_pc m)). }
  pose proof (after_stop_exec acts _ _ _ _ H1) as (Hrun & Hst & evs & Htr & Hev).
  fold m2 in Hrun, Hst, Htr, Hev.
  split; [done|]. split; [done|]. split; [done|]. split.
  { exists evs. split; [done|].
    destruct (in_pass (m_pc m2)); [destruct Hev as [-> _]; simpl; lia | done]. }
  split.
  { intros cap Hpc. cbn [step]. unfold thread_step. by rewrite Hpc, Hrun. }
  split.
  { intros Hb Hw Hn.
    pose proof (exit_exec acts m1 eq_refl Hb Hw) as Hle. fold m2 in Hle.
    assert (steps_to_exit (m_pc m2) = 0%nat) as H0.
    { cbn in Hle. destruct (m_pc m); simpl in *; lia. }
    by destruct (m_pc m2). }
  split; [done|].
  unfold m2. rewrite daemon_exec. reflexivity.
Qed.
End Facts.
End CaptureFacts.

(** ** The display loop: pacing *)

Module DisplayFacts.
Import ShowScreen.
Section Facts.
Context {frame : Type}.

(** [epsilon] is a positive double. *)
Lemma epsilon_value : epsilon = S754_finite false 4611686018427388 (-62).
Proof. reflexivity. Qed.

(** A double above a positive one is not below zero, and is no NaN. *)
Lemma above_positive (m : positive) (e : Z) (v : spec_float) :
  SFltb (S754_finite false m e) v = true ->
  SFltb v (S754_zero false) = false /\ v <> S754_nan.
Proof.
  unfold SFltb. destruct v as [sv|[|]| |[|] mv ev]; cbn; by intros.
Qed.

(** It is above zero. *)
Lemma above_positive_strict (m : positive) (e : Z) (v : spec_float) :
  SFltb (S754_finite false m e) v = true -> SFltb (S754_zero false) v = true.
Proof.
  unfold SFltb. destruct v as [sv|[|]| |[|] mv ev]; cbn; by intros.
Qed.

(** [max(0.001, v)] is [v] when [v > 0.001] and [0.001] otherwise (also
    for a NaN); either way it is neither below [0.001] nor below zero. *)
Lemma py_max_epsilon (v : spec_float) :
  let s := F64.py_max epsilon v in
  (F64.ltb epsilon v = true -> s = v)
  /\ (F64.ltb epsilon v = false -> s = epsilon)
  /\ SFleb epsilon s = true
  /\ F64.ltb s (S754_zero false) = false
  /\ s <> S754_nan.
Proof.
  cbn zeta. unfold F64.py_max, F64.ltb.
  destruct (SFltb epsilon v) eqn:Hlt.
  - split; [done|]. split; [done|].
    rewrite epsilon_value in Hlt.
    destruct (above_positive _ _ _ Hlt) as [Hz Hn].
    split; [|by split].
    rewrite epsilon_value. unfold SFleb, SFltb in *.
    by destruct (SFcompare _ v) as [[| |]|].
  - split; [done|]. split; [done|]. by vm_compute.
Qed.

Ltac no_sleep :=
  let ev := fresh "ev" in let Hev := fresh "Hev" in
  intros ev Hev ? ->;
  repeat (apply elem_of_cons in Hev as [Hev|Hev]; [done|]);
  by apply elem_of_nil in Hev.

(** C8. At the end of every pass of the display loop, after the
    rendering, the loop sleeps exactly
    [max(0.001, 1.0/target_fps - elapsed_frame)], where [elapsed_frame]
    is the time read after the rendering minus the time read when the
    pass began: that is [1.0/target_fps - elapsed_frame] when this
    exceeds [0.001], and [0.001] otherwise. The floor is the double
    [0.001], which is above zero, so the sleep is never below [0.001],
    never negative and never zero. *)
Theorem pacing_sleep (target_width target_fps : Z) (clk : tick)
    (st : display_state frame) (fps count : spec_float) :
  F64.of_int target_fps = Ok fps -> F64.is_zero fps = false ->
  F64.of_int (frame_count st + 1) = Ok count ->
  let elapsed_frame := F64.sub (t_after clk) (t_frame_start clk) in
  let remaining := F64.sub (SFdiv F64.prec F64.emax F64.one fps) elapsed_frame in
  let s := F64.py_max epsilon remaining in
  sleep_time target_fps (t_frame_start clk) (t_after clk) = Ok s
  /\ (exists st' shown,
        display_pass target_width target_fps clk st
          = Ok (st', (shown ++ [DisplaySleep s; WaitKey 1])%list,
                Z.land (key clk) 255 =? 113)
        /\ forall ev, ev ∈ shown -> forall d, ev <> DisplaySleep d)
  /\ (F64.ltb epsilon remaining = true -> s = remaining)
  /\ (F64.ltb epsilon remaining = false -> s = epsilon)
  /\ SFleb epsilon s = true
  /\ F64.ltb s (S754_zero false) = false
  /\ epsilon = S754_finite false 4611686018427388 (-62)
  /\ SFltb (S754_zero false) epsilon = true
  /\ SFltb (S754_zero false) s = true
  /\ SFleb (S754_finite false 4611686018427388 (-62)) s = true.
Proof.
  intros Hfps Hnz Hcount elapsed_frame remaining s.
  assert (Hs : sleep_time target_fps (t_frame_start clk) (t_after clk) = Ok s).
  { unfold sleep_time. rewrite Hfps. cbn [mbind result_bind].
    unfold F64.div. rewrite Hnz. reflexivity. }
  split; [done|].
  destruct (py_max_epsilon remaining) as (H1 & H2 & H3 & H4 & _).
  assert (Hpos : SFltb (S754_zero false) s = true).
  { unfold s. destruct (F64.ltb epsilon remaining) eqn:Hlt.
    - rewrite (H1 eq_refl). unfold F64.ltb in Hlt. rewrite epsilon_value in Hlt.
      by apply above_positive_strict in Hlt.
    - by rewrite (H2 eq_refl). }
  split; [|by repeat split].
  unfold display_pass.
  destruct (get_latest_frame (capture_thread st)) as [[[img|] thread]|e] eqn:Hget.
  - cbn [mbind result_bind]. rewrite Hcount.
    destruct (F64.geb _ F64.one) eqn:Hge.
    + cbn [mbind result_bind]. unfold F64.div.
      assert (F64.is_zero (F64.sub (t_current clk) (last_fps_update st)) = false)
        as ->.
      { unfold F64.geb, SFleb in Hge.
        by destruct (F64.sub (t_current clk) (last_fps_update st)). }
      cbn [mbind result_bind]. rewrite Hs. cbn [mbind result_bind].
      eexists _, _. split; [reflexivity | no_sleep].
    + cbn [mbind result_bind]. rewrite Hs. cbn [mbind result_bind].
      eexists _, _. split; [reflexivity | no_sleep].
  - cbn [mbind result_bind]. rewrite Hs. cbn [mbind result_bind].
    eexists _, _. split; [reflexivity|]. no_sleep.
  - exfalso. unfold get_latest_frame, get_nowait in Hget.
    by destruct (items _).
Qed.
End Facts.
End DisplayFacts.

(** ** Doubles made from integers *)

Module F64Facts.







End F64Facts.

(** ** The relay server: [/click] *)

Module ClickFacts.
Import ShowPC.

(** The success payload can be written when both coordinates can. *)
Lemma writable_success (cx cy : Z) :
  writable (PDict {[ "status" := PStr "success"; "x" := PInt cx; "y" := PInt cy ]})
    = (PyStr.ndigits cx <=? 4300) && (PyStr.ndigits cy <=? 4300).
Proof.
  cbn [writable].
  rewrite map_fold_insert_L;
    [| intros; by rewrite !andb_assoc, (andb_comm (writable z1))
     | by vm_compute].
  rewrite map_fold_insert_L;
    [| intros; by rewrite !andb_assoc, (andb_comm (writable z1))
     | by vm_compute].
  rewrite map_fold_singleton. cbn [writable andb]. by rewrite andb_true_r.
Qed.

Lemma jsonify_success (cx cy : Z) :
  jsonify {[ "status" := PStr "success"; "x" := PInt cx; "y" := PInt cy ]} 200
    = if (PyStr.ndigits cx <=? 4300) && (PyStr.ndigits cy <=? 4300)
      then Ok (success cx cy) else Raise PyStr.str_limit.
Proof. unfold jsonify. by rewrite writable_success. Qed.

(** The error payload holds strings only: it can always be written. *)
Lemma jsonify_failure (e : exn) :
  jsonify {[ "status" := PStr "error"; "message" := PStr (str_of_exn e) ]} 500
    = Ok (failure e).
Proof.
  unfold jsonify. cbn [writable].
  rewrite map_fold_insert_L;
    [| intros; by rewrite !andb_assoc, (andb_comm (writable z1))
     | by vm_compute].
  by rewrite map_fold_singleton.
Qed.

Section Facts.
Context {G : Type}.
Implicit Types (gui : pyautogui G) (d : gmap string pyval) (g : G)
  (req : result pyval).

Lemma M_bind_unfold {A B} (m : M G A) (k : A -> M G B) (s : G) :
  (m ≫= k) s =
    match m s with
    | (Ok a, s') => k a s'
    | (Raise e, s') => (Raise e, s')
    end.
Proof. reflexivity. Qed.

(** The [try] block on a body that is a dict, step by step. *)
Lemma click_steps_dict gui d g :
  click_steps gui (Ok (PDict d)) g =
    match size gui g with
    | (Ok (w, h), g1) =>
        match coordinate d "x" w with
        | Ok cx =>
            match coordinate d "y" h with
            | Ok cy =>
                match moveTo gui cx cy (F64.dec 1 10) g1 with
                | (Ok _, g2) =>
                    match click gui g2 with
                    | (Ok _, g3) =>
                        (if (PyStr.ndigits cx <=? 4300) && (PyStr.ndigits cy <=? 4300)
                         then Ok (success cx cy) else Raise PyStr.str_limit, g3)
                    | (Raise e, g3) => (Raise e, g3)
                    end
                | (Raise e, g2) => (Raise e, g2)
                end
            | Raise e => (Raise e, g1)
            end
        | Raise e => (Raise e, g1)
        end
    | (Raise e, g1) => (Raise e, g1)
    end.
Proof.
  unfold click_steps, coordinate.
  rewrite M_bind_unfold. unfold lift at 1.
  rewrite M_bind_unfold. unfold lift at 1. cbn [get].
  rewrite M_bind_unfold. unfold lift at 1. cbn [get].
  rewrite M_bind_unfold. destruct (size gui g) as [[[w h]|e] g1]; [|done].
  rewrite M_bind_unfold. unfold lift at 1.
  destruct (mul_int _ w ≫= int) as [cx|e]; [|done].
  rewrite M_bind_unfold. unfold lift at 1.
  destruct (mul_int _ h ≫= int) as [cy|e]; [|done].
  rewrite M_bind_unfold. destruct (moveTo gui cx cy _ g1) as [[[]|e] g2]; [|done].
  rewrite M_bind_unfold. destruct (click gui g2) as [[[]|e] g3]; [|done].
  unfold lift. by rewrite jsonify_success.
Qed.

(** A body that is no dict fails before anything is injected. *)
Lemma click_steps_not_dict gui req g :
  (forall d, req <> Ok (PDict d)) ->
  exists e, click_steps gui req g = (Raise e, g).
Proof.
  intros H. unfold click_steps. rewrite M_bind_unfold. unfold lift at 1.
  destruct req as [data|e]; [|by eauto].
  rewrite M_bind_unfold. unfold lift at 1.
  destruct data; cbn [get]; try by eauto. by destruct (H d).
Qed.

Lemma handle_click_unfold gui req g :
  handle_click gui req g =
    match click_steps gui req g with
    | (Ok resp, g') => (Ok resp, g')
    | (Raise e, g') => (Ok (failure e), g')
    end.
Proof.
  unfold handle_click, try_exceptM.
  destruct (click_steps gui req g) as [[resp|e] g']; [done|].
  cbn [is_Exception]. unfold lift. by rewrite jsonify_failure.
Qed.

(** The answers of the view on a body that is a dict. *)
Lemma handle_click_dict gui d g :
  handle_click gui (Ok (PDict d)) g =
    match size gui g with
    | (Ok (w, h), g1) =>
        match coordinate d "x" w with
        | Ok cx =>
            match coordinate d "y" h with
            | Ok cy =>
                match moveTo gui cx cy (F64.dec 1 10) g1 with
                | (Ok _, g2) =>
                    match click gui g2 with
                    | (Ok _, g3) =>
                        (Ok (if (PyStr.ndigits cx <=? 4300)
                                && (PyStr.ndigits cy <=? 4300)
                             then success cx cy else failure PyStr.str_limit), g3)
                    | (Raise e, g3) => (Ok (failure e), g3)
                    end
                | (Raise e, g2) => (Ok (failure e), g2)
                end
            | Raise e => (Ok (failure e), g1)
            end
        | Raise e => (Ok (failure e), g1)
        end
    | (Raise e, g1) => (Ok (failure e), g1)
    end.
Proof.
  rewrite handle_click_unfold, click_steps_dict.
  destruct (size gui g) as [[[w h]|e] g1]; [|done].
  destruct (coordinate d "x" w) as [cx|e]; [|done].
  destruct (coordinate d "y" h) as [cy|e]; [|done].
  destruct (moveTo _ _ _ _ _) as [[[]|e] g2]; [|done].
  destruct (click gui g2) as [[[]|e] g3]; [|done].
  by destruct (_ && _).
Qed.

(** The view never lets an exception out. *)
Lemma handle_click_answers gui req g :
  exists resp g', handle_click gui req g = (Ok resp, g')
    /\ (status_code resp = 200 \/ status_code resp = 500).
Proof.
  assert ((exists d, req = Ok (PDict d)) \/ forall d, req <> Ok (PDict d))
    as [[d ->]|Hn] by (destruct req as [[]|]; eauto).
  - rewrite handle_click_dict.
    destruct (size gui g) as [[[w h]|] g1]; [|by eauto].
    destruct (coordinate d "x" w); [|by eauto].
    destruct (coordinate d "y" h); [|by eauto].
    destruct (moveTo _ _ _ _ _) as [[|] g2]; [|by eauto].
    destruct (click gui g2) as [[|] g3]; [|by eauto].
    destruct (_ && _); by eauto.
  - rewrite handle_click_unfold.
    destruct (click_steps_not_dict gui req g Hn) as [e ->]. by eauto.
Qed.


(** C3, as the code has it. Every [POST /click] that succeeds had a
    JSON object as body and answers [{"status": "success", "x": cx,
    "y": cy}] with status 200 after a move to [(cx, cy)] and a click,
    where [(cx, cy)] is [(int(x*width), int(y*height))] for the
    display size [width] x [height] that [pyautogui.size()] gave: the
    products truncated toward zero, not rounded. *)
Theorem click_coordinates gui req g resp g' :
  handle_click gui req g = (Ok resp, g') -> status_code resp = 200 ->
  exists d w h g1 g2 cx cy,
    req = Ok (PDict d)
    /\ size gui g = (Ok (w, h), g1)
    /\ click_target (default (PInt 0) (d !! "x")) (default (PInt 0) (d !! "y")) w h
         = Ok (cx, cy)
    /\ moveTo gui cx cy (F64.dec 1 10) g1 = (Ok (), g2)
    /\ click gui g2 = (Ok (), g')
    /\ resp = mkResponse 200 "application/json"
                (Json (PDict {[ "status" := PStr "success";
                                "x" := PInt cx; "y" := PInt cy ]}))
    /\ (forall fx, d !! "x" = Some (PFloat fx) ->
          (F64.mul_int fx w ≫= F64.to_int) = Ok cx)
    /\ (forall fy, d !! "y" = Some (PFloat fy) ->
          (F64.mul_int fy h ≫= F64.to_int) = Ok cy).
Proof.
  intros H Hcode.
  assert ((exists d, req = Ok (PDict d)) \/ forall d, req <> Ok (PDict d))
    as [[d ->]|Hn] by (destruct req as [[]|]; eauto).
  2: { rewrite handle_click_unfold in H.
       destruct (click_steps_not_dict gui req g Hn) as [e He].
       rewrite He in H. by injection H as <- <-. }
  rewrite handle_click_dict in H.
  destruct (size gui g) as [[[w h]|] g1]; [|by injection H as <- <-].
  destruct (coordinate d "x" w) as [cx|] eqn:Hx; [|by injection H as <- <-].
  destruct (coordinate d "y" h) as [cy|] eqn:Hy; [|by injection H as <- <-].
  destruct (moveTo _ _ _ _ _) as [[[]|] g2] eqn:Hm; [|by injection H as <- <-].
  destruct (click gui g2) as [[[]|] g3] eqn:Hc; [|by injection H as <- <-].
  destruct (_ && _); injection H as <- <-; [|done].
  exists d, w, h, g1, g2, cx, cy. unfold click_target, coordinate in *.
  rewrite Hx, Hy. repeat split; try done.
  - intros fx Hfx. rewrite Hfx in Hx. cbn [default from_option id mul_int] in Hx.
    unfold F64.mul_int in *. by destruct (F64.of_int w).
  - intros fy Hfy. rewrite Hfy in Hy. cbn [default from_option id mul_int] in Hy.
    unfold F64.mul_int in *. by destruct (F64.of_int h).
Qed.


End Facts.
End ClickFacts.

(** ** The relay server: [/screen] *)

Module ScreenFacts.
Import ShowPC.
Section Facts.
Context {image : Type}.
Implicit Types (env : pil image) (args : gmap string string).

(** The quality that [screen] works with, when [q] is absent or an
    integer literal. *)
Lemma screen_unfold env args (quality : Z) :
  match args !! "q" with
  | Some s => PyStr.int s
  | None => Ok default_quality
  end = Ok quality ->
  screen env args =
    match (screenshot ← grab env; save_jpeg env screenshot (Some (clamp quality))) with
    | Ok b => Ok (jpeg b)
    | Raise e => jpeg <$> error_image env e
    end.
Proof.
  intros Hq. unfold screen. rewrite Hq. cbn [mbind result_bind].
  destruct (grab env) as [img|e]; cbn [mbind result_bind try_except is_Exception].
  - destruct (save_jpeg env img _) as [b|e];
      cbn [mbind result_bind try_except is_Exception]; [done|].
    by destruct (error_image env e).
  - by destruct (error_image env e).
Qed.

Lemma clamp_range (q : Z) : 10 <= clamp q <= 100.
Proof. unfold clamp. lia. Qed.

Lemma clamp_inside (q : Z) : 10 <= q <= 100 -> clamp q = q.
Proof. unfold clamp. lia. Qed.

(** C5, as the code has it. A [GET /screen] whose [q] is an integer
    literal that [int] accepts for [q], of no more than 4300 digits,
    encodes the captured frame at quality [max(10, min(100, q))], which
    lies in [10..100]: the response body is what the encoder returns for
    the frame at that quality. In particular, [q=5] encodes at quality
    10 and [q=500] at quality 100. *)
Theorem quality_clamp env args (raw : string) (q : Z) (frame : image)
    (b : list Byte.byte) :
  args !! "q" = Some raw -> PyStr.int raw = Ok q ->
  grab env = Ok frame ->
  save_jpeg env frame (Some (Z.max 10 (Z.min 100 q))) = Ok b ->
  get_screen env args = mkResponse 200 "image/jpeg" (Bytes b)
  /\ 10 <= Z.max 10 (Z.min 100 q) <= 100
  /\ (raw = "5" -> q = 5 /\ Z.max 10 (Z.min 100 q) = 10)
  /\ (raw = "500" -> q = 500 /\ Z.max 10 (Z.min 100 q) = 100).
Proof.
  intros Hraw Hq Hgrab Hsave. split; [|split; [lia|]].
  - unfold get_screen. rewrite (screen_unfold env args q) by by rewrite Hraw.
    rewrite Hgrab. cbn [mbind result_bind]. unfold clamp. by rewrite Hsave.
  - split; intros ->; vm_compute in Hq; injection Hq as <-; by vm_compute.
Qed.

(** What the [try] block of the view is there for: a [GET /screen]
    whose [q] is absent or an integer literal that [int] accepts, served
    by an encoder that can draw the fallback picture, is answered with
    status 200 and image bytes: the encoded frame when capture and
    encoding succeed, and when either raises, the encoding of the red
    800x600 picture that carries the text of the exception. *)
Lemma screen_always_image env args :
  (forall raw, args !! "q" = Some raw -> exists q, PyStr.int raw = Ok q) ->
  (forall e, exists b, error_image env e = Ok b) ->
  exists b quality,
    get_screen env args = mkResponse 200 "image/jpeg" (Bytes b)
    /\ match args !! "q" with
       | Some raw => PyStr.int raw = Ok quality
       | None => quality = 70
       end
    /\ (forall e, grab env = Raise e -> error_image env e = Ok b)
    /\ (forall frame e, grab env = Ok frame ->
          save_jpeg env frame (Some (clamp quality)) = Raise e ->
          error_image env e = Ok b)
    /\ (forall frame b', grab env = Ok frame ->
          save_jpeg env frame (Some (clamp quality)) = Ok b' -> b = b').
Proof.
  intros Hq Herr.
  assert (exists quality,
             match args !! "q" with
             | Some s => PyStr.int s
             | None => Ok default_quality
             end = Ok quality) as [quality Hquality].
  { destruct (args !! "q") as [raw|]; [by apply Hq | by eexists]. }
  unfold get_screen. rewrite (screen_unfold env args quality Hquality).
  assert (Hqual : match args !! "q" with
                  | Some raw => PyStr.int raw = Ok quality
                  | None => quality = 70
                  end).
  { destruct (args !! "q"); [done|]. by injection Hquality as <-. }
  destruct (grab env) as [frame|e] eqn:Hgrab; cbn [mbind result_bind].
  - destruct (save_jpeg env frame _) as [b|e] eqn:Hsave.
    + exists b, quality. repeat split; try done; congruence.
    + destruct (Herr e) as [b Hb]. rewrite Hb. exists b, quality.
      repeat split; try done; congruence.
  - destruct (Herr e) as [b Hb]. rewrite Hb. exists b, quality.
    repeat split; try done; congruence.
Qed.

(** C4, at [GET /screen?q=abc]. The quality is parsed at line 337, before
    the [try] block begins: [int] raises, the exception leaves the view
    whatever the imaging library would answer, no picture is made, and
    the client gets the 500 page, not status 200 with image bytes. *)
Theorem bad_quality_escapes env :
  screen env {[ "q" := "abc" ]}
    = Raise (Exn ValueError "invalid literal for int() with base 10: abc")
  /\ get_screen env {[ "q" := "abc" ]}
       = mkResponse 500 "text/html" (Html "Internal Server Error")
  /\ status_code (get_screen env {[ "q" := "abc" ]}) <> 200
  /\ mimetype (get_screen env {[ "q" := "abc" ]}) <> "image/jpeg".
Proof.
  unfold get_screen, screen. rewrite lookup_singleton_eq.
  change (PyStr.int "abc")
    with (@Raise Z (Exn ValueError "invalid literal for int() with base 10: abc")).
  cbn [mbind result_bind flask_dispatch status_code mimetype]. by repeat split.
Qed.
End Facts.
End ScreenFacts.

(** * Worked scenarios *)

Module Scenarios.
Import ShowScreen ShowPC Samples.

(** ** Strings *)

Example split_wm_size :
  PyStr.split ": " "Physical size: 1080x2400" = ["Physical size"; "1080x2400"].
Proof. reflexivity. Qed.

Example split_trailing_separator : PyStr.split ": " "a: " = ["a"; EmptyString].
Proof. reflexivity. Qed.

Example int_literals :
  PyStr.int " 1080 " = Ok 1080 /\ PyStr.int "-1_0" = Ok (-10)
  /\ PyStr.int "+007" = Ok 7
  /\ (exists e, PyStr.int "1__0" = Raise e) /\ (exists e, PyStr.int "abc" = Raise e)
  /\ (exists e, PyStr.int EmptyString = Raise e) /\ (exists e, PyStr.int "5_" = Raise e).
Proof. vm_compute. repeat split; eauto. Qed.

(** ** Doubles *)

Example half_value : F64.of_bin 1 (-1) = S754_finite false 4503599627370496 (-53).
Proof. reflexivity. Qed.

Example rounding_and_truncation :
  F64.to_int (F64.of_bin 135 (-3)) = Ok 16
  /\ F64.round_half_even (F64.of_bin 135 (-3)) = Ok 17
  /\ F64.round_half_even (F64.of_bin 75 (-1)) = Ok 38
  /\ F64.round_half_even (F64.of_bin 73 (-1)) = Ok 36
  /\ F64.to_int (F64.of_bin (-75) (-1)) = Ok (-37).
Proof. by vm_compute. Qed.

(** ** The capture thread *)

(** Three pushes into the default queue of two. *)
Lemma queue_bound_witness :
  exists self',
    run (captured <$> [F1; F2; F3]) (init 480 2) []
      = Ok (self', replicate 3 (Sleep short_sleep), AtLoopHead)
    /\ items (frame_queue self') = [F2; F3]
    /\ length (items (frame_queue self')) = 2%nat.
Proof.
  exact (proj1 (QueueFacts.queue_bound 2 1 480 [F1; F2; F3] ltac:(lia) eq_refl)).
Defined.

(** With [max_queue_size=0] nothing is ever evicted. *)
Example unbounded_queue_keeps_all :
  run (captured <$> [F1; F2; F3]) (init 480 0) []
    = Ok (mkThread 480 (mkQueue 0 [F1; F2; F3]) true true,
          replicate 3 (Sleep short_sleep), AtLoopHead).
Proof. reflexivity. Qed.

(** With the default capacity of two, the pop after the three pushes
    returns [F2], which is not the latest frame. *)
Example default_queue_pops_second :
  run (captured <$> [F1; F2; F3]) (init 480 2) []
    = Ok (mkThread 480 (mkQueue 2 [F2; F3]) true true,
          replicate 3 (Sleep short_sleep), AtLoopHead)
  /\ get_latest_frame (mkThread 480 (mkQueue 2 [F2; F3]) true true)
     = Ok (Some F2, mkThread 480 (mkQueue 2 [F3]) true true)
  /\ F2 <> F3.
Proof. split; [reflexivity|]. split; [reflexivity | discriminate]. Qed.

Example capture_healthy :
  get_screenshot_with_size healthy 480 = Ok (Some (png, (480, 1066))).
Proof. reflexivity. Qed.

Example capture_failures :
  get_screenshot_with_size no_adb 480 = Ok None
  /\ get_screenshot_with_size
       (sample_bridge (Raise (Exn TimeoutExpired "timed out after 2 seconds"))
                      (Ok (mkProc 0 png))) 480 = Ok None
  /\ get_screenshot_with_size
       (sample_bridge (Ok (mkProc 0 "Physical size: 1080 by 2400"))
                      (Ok (mkProc 0 png))) 480 = Ok None
  /\ get_screenshot_with_size
       (sample_bridge (Ok (mkProc 0 "Physical size: 0x2400"))
                      (Ok (mkProc 0 png))) 480 = Ok None
  /\ get_screenshot_with_size
       (sample_bridge (Ok (mkProc 1 "error: no devices/emulators found"))
                      (Ok (mkProc 0 png))) 480 = Ok None
  /\ get_screenshot_with_size (sample_bridge wm_size_ok (Ok (mkProc 1 png))) 480
     = Ok None
  /\ get_screenshot_with_size (sample_bridge wm_size_ok (Ok (mkProc 0 []))) 480
     = Ok None
  /\ get_screenshot_with_size
       (sample_bridge wm_size_ok (Ok (mkProc 0 [Byte.x00]))) 480 = Ok None.
Proof. by vm_compute. Qed.

(** A healthy device fills the queue of two and then keeps it at two. *)
Example healthy_device_fills_queue :
  run_on [healthy; healthy; healthy] (init 480 2)
    = Ok (mkThread 480 (mkQueue 2 [(png, (480, 1066)); (png, (480, 1066))]) true true,
          replicate 3 (Sleep short_sleep), AtLoopHead).
Proof. reflexivity. Qed.

(** C6 on a machine without the bridge: every pass ends with the short
    sleep, three passes take three short sleeps. *)
Example no_adb_sleeps_short :
  run_on [no_adb; no_adb; no_adb] (init 480 2)
    = Ok (init 480 2, replicate 3 (Sleep short_sleep), AtLoopHead).
Proof. reflexivity. Qed.

(** A stop during a pass: the pass ends, the next test of the flag
    leaves the loop. *)
Example stop_during_pass :
  exec [ThreadStep (captured F1); CallStop; ThreadStep (captured F2);
        ThreadStep (captured F3); ThreadStep (captured F3)]
       (start (init 480 2))
    = mkMachine (mkThread 480 (mkQueue 2 [F2]) false true) Exited
        [Sleep short_sleep] 1.
Proof. reflexivity. Qed.

(** ** The display loop *)

(** A pass at 15 frames per second that took 31.25 ms: a frame is
    shown, the loop sleeps the remaining 35.4 ms and goes on. *)
Example display_pass_sample :
  display_pass 480 15 sample_tick sample_display
    = Ok (mkDisplay (mkThread 480 (mkQueue 2 [F3]) true true) 1 (F64.of_bin 100 0),
          [ImShow F2; DisplaySleep (S754_finite false 5104079577686562 (-57));
           WaitKey 1],
          false).
Proof. by vm_compute. Qed.

(** The key [q] ends the loop. *)
Example display_pass_quit :
  snd <$> display_pass 480 15
            (mkTick (F64.of_bin 100 0) (F64.of_bin 100 0) (F64.of_bin 100 0) 113)
            sample_display
    = Ok true.
Proof. by vm_compute. Qed.

Lemma pacing_sleep_witness :
  sleep_time 15 (t_frame_start sample_tick) (t_after sample_tick)
    = Ok (S754_finite false 5104079577686562 (-57))
  /\ epsilon = S754_finite false 4611686018427388 (-62)
  /\ SFltb (S754_zero false) (S754_finite false 4611686018427388 (-62)) = true
  /\ SFleb (S754_finite false 4611686018427388 (-62))
           (S754_finite false 5104079577686562 (-57)) = true.
Proof.
  pose proof (DisplayFacts.pacing_sleep 480 15 sample_tick sample_display
                (F64.of_bin 15 0) (F64.of_bin 1 0) eq_refl eq_refl eq_refl)
    as (Hs & _ & _ & _ & _ & _ & Heps & Hpos & _ & Hle).
  split; [exact Hs|]. split; [exact Heps|]. rewrite Heps in Hpos.
  split; [exact Hpos | exact Hle].
Defined.

(** ** [POST /click] *)

(** The centre of a 1080x2400 display. *)
Example click_centre :
  handle_click phone (Ok (body half half)) []
    = (Ok (success 540 1200), [Moved 540 1200 (F64.dec 1 10); Clicked]).
Proof. by vm_compute. Qed.

(** C3 fails as stated: for [x = 1/64] the product [x * 1080] is
    [16.875], and the handler resolves 16 where rounding gives 17. *)
Lemma click_rounding_counterexample :
  handle_click phone (Ok (body (F64.of_bin 1 (-6)) half)) []
    = (Ok (mkResponse 200 "application/json"
             (Json (PDict {[ "status" := PStr "success";
                             "x" := PInt 16; "y" := PInt 1200 ]}))),
       [Moved 16 1200 (F64.dec 1 10); Clicked])
  /\ rounded_target (PFloat (F64.of_bin 1 (-6))) (PFloat half) 1080 2400
     = Ok (17, 1200).
Proof. by vm_compute. Qed.

(** The centre of the 1080x2400 display: the target is [(540, 1200)]. *)
Lemma click_coordinates_witness :
  handle_click phone (Ok (body half half)) []
    = (Ok (mkResponse 200 "application/json"
             (Json (PDict {[ "status" := PStr "success";
                             "x" := PInt 540; "y" := PInt 1200 ]}))),
       [Moved 540 1200 (F64.dec 1 10); Clicked])
  /\ size phone [] = (Ok (1080, 2400), [])
  /\ click_target (PFloat half) (PFloat half) 1080 2400 = Ok (540, 1200)
  /\ moveTo phone 540 1200 (F64.dec 1 10) [] = (Ok (), [Moved 540 1200 (F64.dec 1 10)])
  /\ click phone [Moved 540 1200 (F64.dec 1 10)]
       = (Ok (), [Moved 540 1200 (F64.dec 1 10); Clicked]).
Proof.
  destruct (ClickFacts.click_coordinates phone (Ok (body half half)) []
              (success 540 1200) [Moved 540 1200 (F64.dec 1 10); Clicked]
              click_centre eq_refl)
    as (d & w & h & g1 & g2 & cx & cy & Hd & Hs & Ht & Hm & Hc & Hr & _).
  injection Hd as <-. injection Hs as <- <- <-.
  assert (Hxy : (cx, cy) = (540, 1200)).
  { vm_compute in Ht. by injection Ht as <- <-. }
  injection Hxy as -> ->. injection Hm as <-.
  split; [exact click_centre|]. split; [reflexivity|]. split; [exact Ht|].
  split; [reflexivity | exact Hc].
Defined.

(** A string coordinate is repeated, not scaled: ["5" * 3] is ["555"]. *)
Example click_string_coordinate :
  handle_click (recording_gui 3 2)
    (Ok (PDict {[ "x" := PStr "5"; "y" := PStr "1" ]})) []
    = (Ok (success 555 11), [Moved 555 11 (F64.dec 1 10); Clicked]).
Proof. by vm_compute. Qed.

(** Bodies that are turned away with the 500 payload, nothing injected. *)
Example click_rejected :
  let answer req := handle_click phone req [] in
  let rejected r := (status_code <$> r.1, r.2) = (Ok 500, []) in
  rejected (answer (Ok (PList [])))
  /\ rejected (answer (Ok (PDict {[ "y" := PNone ]})))
  /\ rejected (answer (Ok (PDict {[ "x" := PFloat S754_nan ]})))
  /\ rejected (answer (Raise (Exn HTTPException "400 Bad Request"))).
Proof. by vm_compute. Qed.



(** An empty object: the pointer goes to the top left corner. *)
Example click_empty_body :
  handle_click phone (Ok (PDict ∅)) []
    = (Ok (success 0 0), [Moved 0 0 (F64.dec 1 10); Clicked]).
Proof. by vm_compute. Qed.

(** ** [GET /screen] *)

(** A [q] that is no integer literal makes [int] raise before the [try],
    and the client gets the 500 page. *)
Example screen_bad_quality_page :
  status_code (get_screen desktop (q_is "abc")) = 500
  /\ get_screen desktop (q_is "abc")
     = mkResponse 500 "text/html" (Html "Internal Server Error").
Proof. by vm_compute. Qed.

Example screen_always_image_broken :
  exists b,
    get_screen broken {[ "mode" := "stream"; "q" := "70" ]}
      = mkResponse 200 "image/jpeg" (Bytes b)
    /\ error_image broken (Exn OSError "screen grab failed") = Ok b.
Proof.
  destruct (ScreenFacts.screen_always_image broken
              {[ "mode" := "stream"; "q" := "70" ]}) as (b & q & H & _ & Hb & _).
  - intros raw Hraw. exists 70. vm_compute in Hraw. injection Hraw as <-.
    reflexivity.
  - intros e. eexists. reflexivity.
  - exists b. split; [exact H|]. apply Hb. reflexivity.
Qed.

Example screen_failure_picture :
  get_screen broken ∅
    = jpeg (Byte.x4b :: list_byte_of_string "red|截图失败: screen grab failed").
Proof. by vm_compute. Qed.

(** The bytes of a failure need not differ from those of a successful
    capture: a desktop that shows the failure picture itself, captured
    at quality 75, encodes to the bytes of the failure response, here
    with an encoder that tells any two pictures and qualities apart. *)
Example failure_bytes_may_coincide :
  get_screen (sample_pil (Ok "red|截图失败: screen grab failed")) (q_is "75")
    = get_screen broken (q_is "75").
Proof. by vm_compute. Qed.

Lemma quality_clamp_witness :
  get_screen desktop (q_is "5")
    = mkResponse 200 "image/jpeg" (Bytes (Byte.x0a :: list_byte_of_string "desktop"))
  /\ Z.max 10 (Z.min 100 5) = 10.
Proof.
  destruct (ScreenFacts.quality_clamp desktop (q_is "5") "5" 5 "desktop"
              (Byte.x0a :: list_byte_of_string "desktop")
              ltac:(vm_compute; reflexivity) ltac:(vm_compute; reflexivity)
              ltac:(reflexivity) ltac:(reflexivity)) as (H & _ & H5 & _).
  split; [exact H | exact (proj2 (H5 eq_refl))].
Defined.

(** C5 fails as stated: a quality of 4301 nines is an integer, and the
    request is answered with the 500 page, not with a picture encoded at
    quality 100; [int] refuses a literal of more than 4300 digits. With
    4300 nines the picture is encoded at quality 100. *)
Lemma quality_digits_counterexample :
  String.length (PyStr.repeat "9" 4301) = 4301%nat
  /\ PyStr.int (PyStr.repeat "9" 4301)
     = Raise (Exn ValueError
                "Exceeds the limit (4300 digits) for integer string conversion: value has 4301 digits; use sys.set_int_max_str_digits() to increase the limit")
  /\ get_screen desktop (q_is (PyStr.repeat "9" 4301))
     = mkResponse 500 "text/html" (Html "Internal Server Error")
  /\ get_screen desktop (q_is (PyStr.repeat "9" 4300))
     = mkResponse 200 "image/jpeg" (Bytes (Byte.x64 :: list_byte_of_string "desktop")).
Proof. by vm_compute. Qed.

Example quality_500 :
  get_screen desktop (q_is "500")
    = jpeg (Byte.x64 :: list_byte_of_string "desktop").
Proof. by vm_compute. Qed.

Example quality_default :
  get_screen desktop ∅ = jpeg (Byte.x46 :: list_byte_of_string "desktop").
Proof. by vm_compute. Qed.
End Scenarios.

(** * Further properties *)

(** ** The choice of the resolution *)

Module MainFacts.
Import ShowScreen ShowScreenApp.

Lemma selected_width_int (s : string) (n : Z) :
  PyStr.int s = Ok n ->
  selected_width (Ok s) =
    Ok (if decide (n = 2) then 480 else if decide (n = 3) then 640 else 360).
Proof.
  intros Hn. unfold selected_width. cbn [mbind result_bind]. rewrite Hn.
  cbn [fmap result_fmap mbind result_bind length resolutions].
  destruct (decide (n = 2)) as [->|]; [reflexivity|].
  destruct (decide (n = 3)) as [->|]; [reflexivity|].
  destruct (decide (n = 1)) as [->|]; [reflexivity|].
  replace ((0 <=? n - 1) && (n - 1 <? Z.of_nat 3)) with false; [reflexivity|].
  symmetry. apply andb_false_iff. rewrite Z.leb_gt, Z.ltb_ge. lia.
Qed.

(** X1. The width that [main] passes on is always one of the three
    resolutions: the entry number [n] when the line typed is the integer
    1, 2 or 3; 360, the first entry, for every other integer that [int]
    reads; and 480 when [int] refuses the line, because it is no integer
    literal or has more than 4300 digits, or when [input] raised. *)
Theorem selected_width_cases (typed : result string) :
  exists w, selected_width typed = Ok w /\ w ∈ resolutions
    /\ (forall s n, typed = Ok s -> PyStr.int s = Ok n ->
          (1 <= n <= 3 -> resolutions !! Z.to_nat (n - 1) = Some w)
          /\ (n < 1 \/ 3 < n -> w = 360))
    /\ ((forall s n, typed = Ok s -> PyStr.int s <> Ok n) -> w = 480).
Proof.
  destruct typed as [s|e].
  - destruct (PyStr.int s) as [n|e] eqn:Hn.
    + eexists. split; [by apply selected_width_int|].
      split; [repeat case_decide; set_solver|]. split.
      * intros s' n' [= <-] Hn'. rewrite Hn in Hn'. injection Hn' as <-. split.
        -- intros Hr. assert (n = 1 \/ n = 2 \/ n = 3) as [->|[->| ->]] by lia;
             reflexivity.
        -- intros Hr. repeat case_decide; lia.
      * intros H. by destruct (H s n).
    + exists 480. unfold selected_width. cbn [mbind result_bind]. rewrite Hn.
      split; [reflexivity|]. split; [set_solver|]. split; [|done].
      intros s' n' [= <-] Hn'. congruence.
  - exists 480. split; [reflexivity|]. split; [set_solver|]. split; [|done].
    intros s' n' [=].
Qed.

Lemma selected_width_returns (typed : result string) :
  exists w, selected_width typed = Ok w /\ (w = 360 \/ w = 480 \/ w = 640).
Proof.
  destruct typed as [s|e]; [|exists 480; by auto].
  destruct (PyStr.int s) as [n|e] eqn:Hn.
  - eexists. split; [by apply selected_width_int|]. repeat case_decide; auto.
  - exists 480. unfold selected_width. cbn [mbind result_bind]. rewrite Hn.
    by auto.
Qed.
End MainFacts.

(** ** Producer and consumer on the frame queue *)

Module SessionFacts.
Import ShowScreen ShowScreenApp.
Section Facts.
Context {frame : Type}.
Implicit Types (self : ScreenCaptureThread frame) (m : machine frame)
  (acts : list (action frame)) (f : frame) (l : list frame)
  (caps : list (result (option frame))).

Lemma kept_bounded (mx : Z) l :
  bounded (mkQueue mx l) -> kept mx l = l.
Proof.
  unfold bounded, kept. cbn [maxsize items]. intros Hb.
  destruct (0 <? mx) eqn:Hmx; [|done]. apply Z.ltb_lt in Hmx.
  apply QueueFacts.newest_short. lia.
Qed.

Lemma kept_app (mx : Z) l k : kept mx (kept mx l ++ k) = kept mx (l ++ k).
Proof. unfold kept. destruct (0 <? mx); [apply QueueFacts.newest_app | done]. Qed.

Lemma kept_is_bounded (mx : Z) l : bounded (mkQueue mx (kept mx l)).
Proof.
  unfold bounded, kept. cbn [maxsize items].
  destruct (0 <? mx) eqn:Hmx; [apply Z.ltb_lt in Hmx | apply Z.ltb_ge in Hmx; by left].
  right. pose proof (QueueFacts.newest_length (Z.to_nat mx) l). lia.
Qed.

Lemma kept_suffix (mx : Z) l : kept mx l `suffix_of` l.
Proof. unfold kept, newest. destruct (0 <? mx); [apply suffix_drop | done]. Qed.

(** A pass that captured [f], on a queue within its bound: the queue
    then keeps what its bound allows of the old content and [f]. *)
Lemma run_body_push self f :
  bounded (frame_queue self) ->
  run_body (captured f) self =
    Ok (Completed
          (with_queue self
             (mkQueue (maxsize (frame_queue self))
                (kept (maxsize (frame_queue self)) (items (frame_queue self) ++ [f]))))
          [Sleep short_sleep]).
Proof.
  intros Hb. destruct (frame_queue self) as [mx l] eqn:Hq. cbn [maxsize items].
  destruct (decide (0 < mx)) as [Hpos|Hneg].
  - unfold bounded in Hb. cbn [maxsize items] in Hb.
    rewrite (QueueFacts.run_body_captured self (Z.to_nat mx) l f);
      [| lia | split; rewrite Hq; cbn; [lia | done] | lia].
    unfold kept. replace (0 <? mx) with true by (symmetry; apply Z.ltb_lt; lia).
    by rewrite Z2Nat.id by lia.
  - rewrite QueueFacts.run_body_captured_unbounded by (rewrite Hq; cbn; lia).
    rewrite Hq. cbn [maxsize items]. unfold kept.
    by replace (0 <? mx) with false by (symmetry; apply Z.ltb_ge; lia).
Qed.

(** Any number of passes whose capture returned (a frame or [None]). *)
Lemma run_returned caps : forall self trace,
  Forall (fun cap => exists r, cap = Ok r) caps ->
  running self = true -> bounded (frame_queue self) ->
  run caps self trace =
    Ok (with_queue self
          (mkQueue (maxsize (frame_queue self))
             (kept (maxsize (frame_queue self))
                (items (frame_queue self) ++ frames_of caps))),
        (trace ++ replicate (length caps) (Sleep short_sleep))%list,
        AtLoopHead).
Proof.
  induction caps as [|cap caps IH]; intros self trace Hok Hrun Hb.
  - cbn [run frames_of omap list_omap length replicate]. rewrite Hrun, !app_nil_r.
    destruct self as [w [mx l] r d]. cbn in *. by rewrite kept_bounded.
  - apply Forall_cons in Hok as [[r ->] Hok]. cbn [run]. rewrite Hrun.
    destruct r as [f|].
    + change (Ok (Some f)) with (captured f). rewrite run_body_push by done.
      cbn [mbind result_bind]. rewrite IH; [| done | done | apply kept_is_bounded].
      cbn [with_queue frame_queue maxsize items target_width running daemon
           frames_of omap list_omap length replicate].
      rewrite kept_app, <- !app_assoc. reflexivity.
    + cbn [run_body mbind result_bind try_except]. rewrite IH by done.
      cbn [frames_of omap list_omap length replicate].
      rewrite <- !app_assoc. reflexivity.
Qed.

(** X2. Whatever the bridge answers in each pass, [run] on a fresh
    thread neither ends nor waits: after as many passes as there are
    answers it is back at the loop head with the flag up, it has slept
    [0.01] s once per pass, and its queue holds, of the frames the passes
    captured, the newest [max_queue_size] in capture order (all of them
    for [max_queue_size <= 0]). In particular, a device that never
    delivers a frame leaves the queue empty and the loop running. *)
Theorem run_on_keeps_going (envs : list (bridge frame)) (width max_queue_size : Z) :
  let caps := (fun env => get_screenshot_with_size env width) <$> envs in
  exists self',
    run_on envs (init width max_queue_size)
      = Ok (self', replicate (length envs) (Sleep short_sleep), AtLoopHead)
    /\ running self' = true
    /\ items (frame_queue self') = kept max_queue_size (frames_of caps)
    /\ bounded (frame_queue self')
    /\ (frames_of caps = [] -> self' = init width max_queue_size).
Proof.
  intros caps.
  assert (Hok : Forall (fun cap => exists r, cap = Ok r) caps).
  { apply Forall_fmap, Forall_forall. intros env _.
    apply CaptureFacts.get_screenshot_with_size_returns. }
  assert (Hb : bounded (frame_queue (init (frame:=frame) width max_queue_size)))
    by (unfold bounded; cbn; lia).
  pose proof (run_returned caps (init width max_queue_size) [] Hok eq_refl Hb) as Hrun.
  cbn [init frame_queue maxsize items PyQueue.new app] in Hrun.
  exists (with_queue (init width max_queue_size)
            (mkQueue max_queue_size (kept max_queue_size (frames_of caps)))).
  split.
  { unfold run_on. cbn [init ShowScreen.target_width]. fold caps.
    rewrite Hrun. unfold caps. by rewrite length_fmap. }
  split; [done|]. split; [done|]. split; [apply kept_is_bounded|].
  intros Hnone. rewrite Hnone. unfold kept, with_queue, PyQueue.new. cbn.
  by destruct (0 <? max_queue_size).
Qed.

(** *** The producer among the calls of the display loop *)

Implicit Types (s : session frame) (a : action frame).

Lemma session_exec_cons a acts s :
  session_exec (a :: acts) s = session_exec acts (session_step a s).
Proof. reflexivity. Qed.

Lemma session_exec_app acts1 acts2 s :
  session_exec (acts1 ++ acts2) s = session_exec acts2 (session_exec acts1 s).
Proof. apply foldl_app. Qed.

Lemma session_step_ready a s :
  queue_ready s ->
  queue_ready (session_step a s)
  /\ maxsize (frame_queue (s_thread (session_step a s)))
       = maxsize (frame_queue (s_thread s)).
Proof.
  intros [Hb Hat]. destruct a as [cap| |]; cbn [session_step].
  - unfold producer_step. destruct (s_at s) as [| |f|f|f|d|] eqn:Hpc.
    + destruct (running (s_thread s)) eqn:Hrun; by repeat split.
    + destruct cap as [[f|]|e]; by repeat split.
    + destruct (full (frame_queue (s_thread s))) eqn:Hfull; (split; [|done]);
        (split; [done|]); cbn [s_at s_thread]; [|done].
      apply QueueFacts.full_true in Hfull. lia.
    + unfold get_nowait.
      destruct (frame_queue (s_thread s)) as [mx [|x rest]] eqn:Hq;
        cbn [items maxsize] in *.
      * change (is_Empty _) with true. cbn iota.
        split; [|by cbn [s_thread]; rewrite Hq].
        split; cbn [s_at s_thread]; rewrite Hq; [done|].
        apply QueueFacts.full_false. cbn. lia.
      * split; [|done]. unfold bounded in Hb. cbn [items maxsize length] in Hb.
        split; [unfold bounded; cbn; lia|].
        cbn [s_at s_thread with_queue frame_queue].
        apply QueueFacts.full_false. cbn. lia.
    + unfold put. rewrite Hat. split; [|done]. split; [|done].
      apply QueueFacts.full_false in Hat. cbn [s_thread with_queue frame_queue].
      unfold bounded. cbn [maxsize items]. rewrite length_app. cbn [length]. lia.
    + by repeat split.
    + split; [|done]. split; [done|]. by rewrite Hpc.
  - split; [|done]. split; [done|]. cbn [s_at s_thread stop frame_queue running].
    by destruct (s_at s).
  - destruct (get_latest_frame (s_thread s)) as [[r self']|e] eqn:Hget; [|done].
    apply CaptureFacts.get_latest_frame_flags in Hget as (Hr & _ & Hm & Hl).
    split; [|done]. split; cbn [s_at s_thread].
    + unfold bounded in *. rewrite Hm. lia.
    + destruct (s_at s); try done.
      * by rewrite Hm.
      * apply QueueFacts.full_false. apply QueueFacts.full_false in Hat.
        rewrite Hm. lia.
      * congruence.
Qed.

Lemma session_exec_ready acts : forall s,
  queue_ready s ->
  queue_ready (session_exec acts s)
  /\ maxsize (frame_queue (s_thread (session_exec acts s)))
       = maxsize (frame_queue (s_thread s)).
Proof.
  induction acts as [|a acts IH]; intros s Hs; [done|].
  rewrite session_exec_cons.
  destruct (session_step_ready a s Hs) as [Hs' Hm].
  destruct (IH _ Hs') as [Hs'' Hm']. split; [done | congruence].
Qed.

Lemma session_step_running a s :
  running (s_thread (session_step a s)) = true
  <-> running (s_thread s) = true /\ CallStop <> a.
Proof.
  destruct a as [cap| |]; cbn [session_step].
  - assert (running (s_thread (producer_step cap s)) = running (s_thread s)) as ->.
    { unfold producer_step. destruct (s_at s) as [| |f|f|f|d|]; try done.
      - by destruct cap as [[f|]|e].
      - by destruct (get_nowait _) as [[x q]|e].
      - by destruct (put f _). }
    split; [by intros ->|by intros [-> _]].
  - cbn. split; [done|by intros [_ []]].
  - assert (running (s_thread
              match get_latest_frame (s_thread s) with
              | Ok (_, self') => mkSession self' (s_at s) (s_trace s)
              | Raise _ => s
              end) = running (s_thread s)) as ->.
    { destruct (get_latest_frame (s_thread s)) as [[r self']|e] eqn:Hget; [|done].
      by apply CaptureFacts.get_latest_frame_flags in Hget as (Hr & _). }
    split; [by intros ->|by intros [-> _]].
Qed.

Lemma session_exec_running acts : forall s,
  running (s_thread (session_exec acts s)) = true
  <-> running (s_thread s) = true /\ CallStop ∉ acts.
Proof.
  induction acts as [|a acts IH]; intros s.
  - cbn. split; [|by intros [-> _]]. intros H. split; [done|]. apply not_elem_of_nil.
  - rewrite session_exec_cons, IH, session_step_running, not_elem_of_cons. tauto.
Qed.

Lemma session_step_width a s :
  target_width (s_thread (session_step a s)) = target_width (s_thread s).
Proof.
  destruct a as [cap| |]; cbn [session_step]; [|done|].
  - unfold producer_step. destruct (s_at s) as [| |f|f|f|d|]; try done.
    + by destruct cap as [[f|]|e].
    + by destruct (get_nowait _) as [[x q]|e].
    + by destruct (put f _).
  - unfold get_latest_frame, get_nowait.
    by destruct (items (frame_queue (s_thread s))).
Qed.

Lemma session_exec_width acts : forall s,
  target_width (s_thread (session_exec acts s)) = target_width (s_thread s).
Proof.
  induction acts as [|a acts IH]; intros s; [done|].
  rewrite session_exec_cons, IH. apply session_step_width.
Qed.

Lemma stop_called_or_not acts : CallStop ∈ acts \/ CallStop ∉ acts.
Proof.
  induction acts as [|a acts [IH|IH]].
  - right. apply not_elem_of_nil.
  - left. by apply elem_of_cons; right.
  - destruct a as [cap| |].
    + right. apply not_elem_of_cons. by split.
    + left. apply elem_of_cons. by left.
    + right. apply not_elem_of_cons. by split.
Qed.

(** X3. The producer never waits in [put], whatever the display loop
    does in between. In every interleaving of the producer's operations
    with calls of [stop] and [get_latest_frame], from the start of a
    fresh thread: the queue stays within [max_queue_size]; when the
    producer stands before [put], the queue has room and [put] returns at
    once, so the producer goes on to sleep [0.01] s; the flag is up
    exactly as long as [stop] was not called; and [run] returns only
    after [stop] was called. *)
Theorem put_never_waits acts (width max_queue_size : Z) :
  let s := session_exec acts (session_start (init width max_queue_size)) in
  bounded (frame_queue (s_thread s))
  /\ maxsize (frame_queue (s_thread s)) = max_queue_size
  /\ (forall f, s_at s = AtPut f ->
        put f (frame_queue (s_thread s))
          = Some (mkQueue max_queue_size (items (frame_queue (s_thread s)) ++ [f])))
  /\ (forall f cap, s_at s = AtPut f ->
        s_at (session_step (ThreadStep cap) s) = AtSleep short_sleep)
  /\ (running (s_thread s) = true <-> CallStop ∉ acts)
  /\ (s_at s = Returned -> CallStop ∈ acts).
Proof.
  intros s.
  assert (Hs0 : queue_ready (session_start (init (frame:=frame) width max_queue_size)))
    by (split; [unfold bounded; cbn; lia | done]).
  destruct (session_exec_ready acts _ Hs0) as [[Hb Hat] Hm]. fold s in Hb, Hat, Hm.
  cbn [session_start s_thread init frame_queue PyQueue.new maxsize] in Hm.
  pose proof (session_exec_running acts
                (session_start (init (frame:=frame) width max_queue_size))) as Hrun.
  fold s in Hrun. cbn [session_start s_thread init running] in Hrun.
  split; [done|]. split; [done|]. split; [|split; [|split]].
  - intros f Hf. rewrite Hf in Hat. unfold put. by rewrite Hat, Hm.
  - intros f cap Hf. cbn [session_step]. unfold producer_step. rewrite Hf.
    rewrite Hf in Hat. unfold put. by rewrite Hat.
  - tauto.
  - intros Hret. rewrite Hret in Hat.
    destruct (stop_called_or_not acts) as [Hin|Hnot]; [done|].
    assert (running (s_thread s) = true) by by apply Hrun. congruence.
Qed.

(** One call or operation: what was waiting, and what was captured, is
    what is waiting now, after what left the queue; a frame handed out
    is among what left. *)
Lemma session_step_frames a s :
  exists pre : list frame,
    (waiting s ++ captured_by a s = pre ++ waiting (session_step a s))%list
    /\ handed_out a s `sublist_of` pre.
Proof.
  unfold waiting. destruct a as [cap| |]; cbn [session_step handed_out].
  - unfold producer_step, captured_by.
    destruct (s_at s) as [| |f|f|f|d|] eqn:Hpc; cbn [in_hand].
    + exists []. split; [|done].
      destruct cap as [[f|]|e], (running _); cbn; by rewrite ?app_nil_r.
    + exists []. split; [|done].
      destruct cap as [[f|]|e]; cbn; by rewrite ?app_nil_r.
    + exists []. split; [|done].
      destruct (full _), cap as [[f'|]|e]; cbn; by rewrite ?app_nil_r.
    + unfold get_nowait.
      destruct (frame_queue (s_thread s)) as [mx [|x rest]] eqn:Hq;
        cbn [items maxsize].
      * change (is_Empty _) with true. cbn iota. exists []. split; [|done].
        destruct cap as [[f'|]|e]; cbn; rewrite Hq; by rewrite ?app_nil_r.
      * exists [x]. split; [|apply sublist_nil_l].
        destruct cap as [[f'|]|e]; cbn; by rewrite ?app_nil_r.
    + exists []. split; [|done]. unfold put.
      destruct (full _), cap as [[f'|]|e]; cbn; rewrite ?Hpc; cbn;
        by rewrite ?app_nil_r.
    + exists []. split; [|done].
      destruct cap as [[f'|]|e]; cbn; by rewrite ?app_nil_r.
    + exists []. split; [|done].
      destruct cap as [[f'|]|e]; cbn; rewrite ?Hpc; cbn; by rewrite ?app_nil_r.
  - exists []. split; [|done]. unfold captured_by. cbn. by rewrite app_nil_r.
  - unfold captured_by. rewrite app_nil_r.
    destruct (items (frame_queue (s_thread s))) as [|x rest] eqn:Hit.
    + rewrite QueueFacts.get_latest_frame_empty by done.
      exists []. cbn [s_thread s_at app]. by rewrite Hit.
    + rewrite (QueueFacts.get_latest_frame_head _ x rest) by done.
      exists [x]. by cbn.
Qed.

Lemma session_exec_frames acts : forall s (D C : list frame),
  waiting s `suffix_of` C -> (D ++ waiting s)%list `sublist_of` C ->
  waiting (session_exec acts s) `suffix_of` (C ++ captured_frames acts s)%list
  /\ (D ++ delivered acts s ++ waiting (session_exec acts s))%list
       `sublist_of` (C ++ captured_frames acts s)%list.
Proof.
  induction acts as [|a acts IH]; intros s D C Hsuf Hsub.
  - cbn [session_exec foldl captured_frames delivered app]. by rewrite !app_nil_r.
  - destruct (session_step_frames a s) as (pre & Heq & Hpre).
    rewrite session_exec_cons. cbn [captured_frames delivered].
    rewrite !(app_assoc C), <- !(app_assoc (handed_out a s)), (app_assoc D).
    apply IH.
    + etrans; [|apply suffix_app, Hsuf]. rewrite Heq. by apply suffix_app_r.
    + etrans; [|apply sublist_app; [exact Hsub | reflexivity]].
      rewrite <- !app_assoc, Heq.
      apply sublist_app; [done|]. by apply sublist_app.
Qed.

(** X4. The display loop is handed captured frames only, each at most
    once and in the order of capture. In every interleaving of the
    producer's operations with calls of [stop] and [get_latest_frame],
    from the start of a fresh thread: the frames still queued, followed
    by the one the producer may hold for its [put], are the newest
    captured frames without a gap; and the frames handed out so far
    followed by these are, in this order, a selection of the captured
    frames, the others having been discarded from a full queue. *)
Theorem frames_in_order acts (width max_queue_size : Z) :
  let s0 := session_start (init width max_queue_size) in
  let s := session_exec acts s0 in
  waiting s `suffix_of` captured_frames acts s0
  /\ (delivered acts s0 ++ waiting s)%list `sublist_of` captured_frames acts s0
  /\ delivered acts s0 `sublist_of` captured_frames acts s0
  /\ (forall f, f ∈ delivered acts s0 -> f ∈ captured_frames acts s0).
Proof.
  intros s0 s.
  destruct (session_exec_frames acts s0 [] []) as [Hsuf Hsub];
    [apply suffix_nil | apply sublist_nil_l |].
  cbn [app] in Hsuf, Hsub. fold s in Hsuf, Hsub.
  assert (Hdel : delivered acts s0 `sublist_of` captured_frames acts s0).
  { etrans; [|exact Hsub]. by apply sublist_inserts_r. }
  split; [done|]. split; [done|]. split; [done|].
  intros f Hf. by eapply elem_of_sublist.
Qed.

(** Carries out the producer's operations on a session that is given. *)
Ltac run_steps :=
  cbv [session_exec replicate foldl session_step producer_step
       s_at s_thread s_trace Nat.add].

Lemma blocked_stays n (cap : result (option frame)) s f :
  s_at s = AtPut f -> put f (frame_queue (s_thread s)) = None ->
  session_exec (replicate n (ThreadStep cap)) s = s.
Proof.
  intros Hat Hput. induction n as [|n IH]; [done|].
  cbn [replicate]. rewrite session_exec_cons. cbn [session_step].
  unfold producer_step at 1. by rewrite Hat, Hput.
Qed.

(** X5. Left alone, the producer's operations of one pass add up to the
    body of the loop as [run] has it: from line 21 with the capture
    result [cap], at most five operations lead back to the [while] with
    the thread object and the sleep that the body gives; and where the
    body waits in [put] (a queue over its bound), the operations reach
    [put] after three steps, with the same thread object, and stay there. *)
Theorem pass_is_run_body (cap : result (option frame)) self (trace : list event) :
  let at_capture := mkSession self AtCapture trace in
  match run_body cap self with
  | Ok (Completed self' evs) =>
      exists n, (n <= 5)%nat
        /\ session_exec (replicate n (ThreadStep cap)) at_capture
             = mkSession self' AtWhile (trace ++ evs)
  | Ok (BlockedInPut self') =>
      exists f, cap = Ok (Some f)
        /\ forall n, (3 <= n)%nat ->
             session_exec (replicate n (ThreadStep cap)) at_capture
               = mkSession self' (AtPut f) trace
  | Raise _ => False
  end.
Proof.
  intros at_capture. unfold run_body, at_capture.
  destruct cap as [[f|]|e]; cbn [mbind result_bind try_except is_Exception].
  - rewrite QueueFacts.discard_old_spec. cbn [mbind result_bind].
    destruct (full (frame_queue self)) eqn:Hfull.
    + destruct (items (frame_queue self)) as [|x rest] eqn:Hit.
      { apply QueueFacts.full_true in Hfull. rewrite Hit in Hfull.
        cbn in Hfull. lia. }
      cbn [tail].
      destruct (put f (mkQueue (maxsize (frame_queue self)) rest)) as [q1|] eqn:Hput;
        cbn [try_except].
      * exists 5%nat. split; [lia|]. run_steps. rewrite Hfull. run_steps.
        unfold get_nowait. rewrite Hit. run_steps.
        cbn [with_queue frame_queue]. rewrite Hput. by run_steps.
      * exists f. split; [done|]. intros n Hn.
        replace n with (3 + (n - 3))%nat by lia.
        rewrite replicate_add, session_exec_app.
        run_steps. rewrite Hfull. run_steps.
        unfold get_nowait. rewrite Hit. run_steps.
        by apply (blocked_stays _ _ _ f).
    + unfold put. rewrite Hfull. cbn [try_except].
      exists 4%nat. split; [lia|]. run_steps. rewrite Hfull. run_steps.
      unfold put. rewrite Hfull. by run_steps.
  - exists 2%nat. split; [lia|]. reflexivity.
  - exists 2%nat. split; [lia|]. reflexivity.
Qed.
End Facts.
End SessionFacts.

(** ** Ints that convert to doubles *)

Module FloatFacts.

Lemma digits2_pos_iter_xO (p k : positive) :
  digits2_pos (Pos.iter xO p k) = (digits2_pos p + k)%positive.
Proof.
  induction k as [|k IH] using Pos.peano_ind.
  - cbn. lia.
  - rewrite Pos.iter_succ. cbn [digits2_pos]. rewrite IH. lia.
Qed.

Lemma digits2_pos_lower (p : positive) :
  2 ^ (Zpos (digits2_pos p) - 1) <= Zpos p.
Proof.
  induction p as [p IH|p IH|]; cbn [digits2_pos]; [| |done];
    rewrite Pos2Z.inj_succ; replace (Z.succ (Zpos (digits2_pos p)) - 1)
      with (Z.succ (Zpos (digits2_pos p) - 1)) by lia;
    rewrite Z.pow_succ_r by lia; lia.
Qed.

(** A mantissa of 53 bits with an exponent in range is kept as it is. *)
Lemma binary_round_aux_exact (sx : bool) (m : positive) (e : Z) :
  Zpos (digits2_pos m) = 53 -> -1074 <= e <= 971 ->
  binary_round_aux 53 1024 sx (Zpos m) e loc_Exact = S754_finite sx m e.
Proof.
  intros Hd He. unfold binary_round_aux, shr_fexp, Zdigits2, fexp, emin.
  rewrite Hd. replace (Z.max (53 + e - 53) (3 - 1024 - 53) - e) with 0 by lia.
  cbn [shr shr_record_of_loc shr_m loc_of_shr_record round_nearest_even].
  rewrite Hd. replace (Z.max (53 + e - 53) (3 - 1024 - 53) - e) with 0 by lia.
  cbn [shr shr_m]. replace (e <=? 1024 - 53) with true; [done|].
  symmetry. apply Z.leb_le. lia.
Qed.

(** [float(n)] for an int of at most 53 bits is finite and not zero. *)
Lemma of_int_small (n : Z) :
  0 < n < 2 ^ 53 ->
  exists m e, F64.of_int n = Ok (S754_finite false m e).
Proof.
  intros Hn. destruct n as [|p|p]; [lia| |lia].
  unfold F64.of_int, F64.of_bin, F64.prec, F64.emax. cbn [binary_normalize].
  unfold binary_round, shl_align, fexp, emin.
  pose proof (digits2_pos_lower p) as Hlow.
  assert (Hd : 1 <= Zpos (digits2_pos p) <= 53).
  { split; [lia|].
    destruct (Z.le_gt_cases (Zpos (digits2_pos p)) 53) as [|Hgt]; [done|].
    assert (2 ^ 53 <= 2 ^ (Zpos (digits2_pos p) - 1))
      by (apply Z.pow_le_mono_r; lia).
    lia. }
  replace (Z.max (Zpos (digits2_pos p) + 0 - 53) (3 - 1024 - 53) - 0)
    with (Zpos (digits2_pos p) - 53) by lia.
  replace (Z.max (Zpos (digits2_pos p) + 0 - 53) (3 - 1024 - 53))
    with (Zpos (digits2_pos p) - 53) by lia.
  destruct (Zpos (digits2_pos p) - 53) as [|k|k] eqn:Hk; [|lia|].
  - rewrite binary_round_aux_exact by lia. by eexists _, _.
  - rewrite binary_round_aux_exact; [by eexists _, _ | | lia].
    rewrite digits2_pos_iter_xO. lia.
Qed.
End FloatFacts.

(** ** The display window *)

Module WindowFacts.
Import ShowScreen ShowScreenApp.
Section Facts.
Context {frame : Type}.
Implicit Types (self : ScreenCaptureThread frame) (s : session frame)
  (a : action frame) (acts : list (action frame)) (w : window frame)
  (turns : list (turn frame)) (st : display_state frame) (clk : tick).

Lemma get_latest_frame_returns self :
  exists img self', get_latest_frame self = Ok (img, self').
Proof.
  unfold get_latest_frame, get_nowait.
  destruct (items (frame_queue self)); by eexists _, _.
Qed.

(** The thread object after a pass is the one that the pass's call of
    [get_latest_frame] left. *)
Lemma display_pass_thread (target_width target_fps : Z) clk st st' evs quit :
  display_pass target_width target_fps clk st = Ok (st', evs, quit) ->
  exists img, get_latest_frame (capture_thread st) = Ok (img, capture_thread st').
Proof.
  unfold display_pass.
  destruct (get_latest_frame (capture_thread st)) as [[img thread]|e]; [|done].
  cbn [mbind result_bind]. intros H. exists img.
  destruct img as [img|].
  - destruct (F64.geb _ _).
    + destruct (c ← F64.of_int _; F64.div c _) as [fps|e]; [|done].
      cbn [mbind result_bind] in H.
      destruct (sleep_time _ _ _); [|done]. by injection H as <- _ _.
    + cbn [mbind result_bind] in H.
      destruct (sleep_time _ _ _); [|done]. by injection H as <- _ _.
  - cbn [mbind result_bind] in H.
    destruct (sleep_time _ _ _); [|done]. by injection H as <- _ _.
Qed.

(** A double that is at least [1.0] is not zero. *)
Lemma geb_one_not_zero (v : spec_float) :
  F64.geb v F64.one = true -> F64.is_zero v = false.
Proof. unfold F64.geb, SFleb. by destruct v. Qed.

(** With a frame rate that converts to a double other than zero and a
    frame counter of at most 53 bits, a pass raises nothing. *)
Lemma display_pass_returns (target_width target_fps : Z) clk st (fps : spec_float) :
  F64.of_int target_fps = Ok fps -> F64.is_zero fps = false ->
  0 <= frame_count st < 2 ^ 53 - 1 ->
  exists st' evs,
    display_pass target_width target_fps clk st
      = Ok (st', evs, Z.land (key clk) 255 =? 113)
    /\ 0 <= frame_count st' <= frame_count st + 1.
Proof.
  intros Hfps Hnz Hcount. unfold display_pass.
  destruct (get_latest_frame_returns (capture_thread st)) as (img & thread & ->).
  cbn [mbind result_bind].
  assert (Hs : exists d,
    sleep_time target_fps (t_frame_start clk) (t_after clk) = Ok d).
  { unfold sleep_time. rewrite Hfps. cbn [mbind result_bind]. unfold F64.div.
    rewrite Hnz. by eexists. }
  destruct Hs as [d Hs]. destruct img as [img|].
  - destruct (F64.geb _ _) eqn:Hge.
    + destruct (FloatFacts.of_int_small (frame_count st + 1)) as (m & e & ->); [lia|].
      cbn [mbind result_bind]. unfold F64.div.
      rewrite (geb_one_not_zero _ Hge). cbn [mbind result_bind].
      rewrite Hs. cbn [mbind result_bind frame_count].
      eexists _, _. split; [done|]. cbn [frame_count]. lia.
    + cbn [mbind result_bind]. rewrite Hs. cbn [mbind result_bind frame_count].
      eexists _, _. split; [done|]. cbn [frame_count]. lia.
  - cbn [mbind result_bind]. rewrite Hs. cbn [mbind result_bind frame_count].
    eexists _, _. split; [done|]. cbn [frame_count]. lia.
Qed.

(** The first pass at zero frames per second divides by zero. *)
Lemma display_pass_zero_fps (target_width : Z) clk st :
  frame_count st = 0 ->
  display_pass target_width 0 clk st
    = Raise (Exn ZeroDivisionError "float division by zero").
Proof.
  intros Hcount. unfold display_pass.
  destruct (get_latest_frame_returns (capture_thread st)) as (img & thread & ->).
  cbn [mbind result_bind]. rewrite Hcount. destruct img as [img|]; [|done].
  destruct (F64.geb _ _) eqn:Hge; [|done].
  change (F64.of_int (0 + 1)) with (Ok F64.one). cbn [mbind result_bind].
  unfold F64.div. by rewrite (geb_one_not_zero _ Hge).
Qed.

(** What the loop did to the thread object is a sequence of calls on
    it: the session at the end is the one these calls lead to. *)
Lemma display_loop_session (target_width target_fps : Z) turns : forall w,
  exists n,
    w_session (display_loop target_width target_fps turns w).2
      = session_exec (turn_action <$> take n turns) (w_session w).
Proof.
  induction turns as [|t turns IH]; intros w; [by exists 0%nat|].
  destruct t as [cap|clk]; cbn [display_loop].
  - destruct (IH (mkWindow (producer_step cap (w_session w))
                    (w_frame_count w) (w_last_fps_update w))) as [n Hn].
    exists (S n). by rewrite Hn.
  - destruct (display_pass _ _ _ _) as [[[st evs] [|]]|e].
    + by exists 1%nat.
    + destruct (IH (mkWindow (session_step CallGetLatestFrame (w_session w))
                      (frame_count st) (last_fps_update st))) as [n Hn].
      exists (S n). by rewrite Hn.
    + by exists 1%nat.
Qed.

Lemma session_step_stopped a s :
  running (s_thread s) = false -> running (s_thread (session_step a s)) = false.
Proof.
  intros Hrun. destruct (running (s_thread (session_step a s))) eqn:H; [|done].
  apply SessionFacts.session_step_running in H as [H _]. congruence.
Qed.

Lemma return_step a s :
  running (s_thread s) = false -> queue_ready s ->
  (steps_to_return (s_at (session_step a s))
     <= steps_to_return (s_at s) - (if is_thread_step a then 1 else 0))%nat.
Proof.
  intros Hrun [Hb Hat]. destruct a as [cap| |]; cbn [session_step is_thread_step].
  - unfold producer_step. destruct (s_at s) as [| |f|f|f|d|] eqn:Hpc.
    + rewrite Hrun. cbn. lia.
    + destruct cap as [[f|]|e]; cbn; lia.
    + destruct (full _); cbn; lia.
    + destruct (get_nowait _) as [[x q]|e]; [cbn; lia|].
      destruct (is_Empty e); cbn; lia.
    + unfold put. rewrite Hat. cbn. lia.
    + cbn. lia.
    + rewrite Hpc. cbn. lia.
  - cbn. lia.
  - destruct (get_latest_frame _) as [[r self']|e]; cbn; lia.
Qed.

Lemma return_exec acts : forall s,
  running (s_thread s) = false -> queue_ready s ->
  (steps_to_return (s_at (session_exec acts s))
     <= steps_to_return (s_at s) - thread_steps acts)%nat.
Proof.
  induction acts as [|a acts IH]; intros s Hrun Hready.
  - cbn. lia.
  - rewrite SessionFacts.session_exec_cons.
    pose proof (return_step a s Hrun Hready) as Hle.
    pose proof (session_step_stopped a s Hrun) as Hrun'.
    destruct (SessionFacts.session_step_ready a s Hready) as [Hready' _].
    specialize (IH _ Hrun' Hready').
    unfold thread_steps in *. rewrite filter_cons.
    destruct a; cbn [is_thread_step] in *;
      (case_decide; [|try done]); cbn [length] in *; try lia; try done.
Qed.

(** With the flag down the producer captures at most once more, and
    only when it stands at the capture. *)
Lemma stopped_captures acts : forall s,
  running (s_thread s) = false ->
  (length (captured_frames acts s)
     <= match s_at s with AtCapture => 1 | _ => 0 end)%nat.
Proof.
  induction acts as [|a acts IH]; intros s Hrun.
  - cbn. lia.
  - cbn [captured_frames]. rewrite length_app.
    specialize (IH _ (session_step_stopped a s Hrun)).
    destruct a as [cap| |]; unfold captured_by; cbn [session_step] in *.
    + unfold producer_step in *.
      destruct (s_at s) as [| |f|f|f|d|] eqn:Hpc.
      * rewrite Hrun in *. destruct cap as [[f|]|e]; cbn in *; lia.
      * destruct cap as [[f|]|e]; cbn in *; lia.
      * destruct (full _), cap as [[f'|]|e]; cbn in *; lia.
      * destruct (get_nowait _) as [[x q]|e0];
          [|destruct (is_Empty e0)]; destruct cap as [[f'|]|e]; cbn in *; lia.
      * destruct (put f _), cap as [[f'|]|e]; cbn in *; rewrite ?Hpc in *; lia.
      * destruct cap as [[f'|]|e]; cbn in *; lia.
      * rewrite Hpc in *. destruct cap as [[f'|]|e]; cbn in *; lia.
    + cbn in *. lia.
    + destruct (get_latest_frame _) as [[r self']|e]; cbn in *; lia.
Qed.

(** X6. However the display loop ends, by the key [q] or by an
    exception, the [finally] block lowers the flag, waits for the thread
    for at most one second and destroys the windows. From then on, in
    every interleaving, the flag stays down, the producer captures at
    most one more frame, and after six of its operations it has left
    [run]: it is never left waiting in [put]. *)
Theorem window_closes (target_width target_fps : Z) (start_time : spec_float)
    turns (e : ending) s (steps : list closing) :
  display_optimized_window target_width target_fps start_time turns = (e, s, steps) ->
  e <> Open ->
  steps = [Join 1; DestroyAllWindows]
  /\ running (s_thread s) = false
  /\ forall acts,
       running (s_thread (session_exec acts s)) = false
       /\ (length (captured_frames acts s) <= 1)%nat
       /\ ((6 <= thread_steps acts)%nat -> s_at (session_exec acts s) = Returned).
Proof.
  unfold display_optimized_window.
  pose (w0 := mkWindow (session_start (init (frame:=frame) target_width
                                          default_max_queue_size)) 0 start_time).
  fold w0. destruct (display_loop_session target_width target_fps turns w0) as [n Hn].
  destruct (display_loop target_width target_fps turns w0) as [e' w] eqn:Hloop.
  cbn [snd] in Hn. intros H Hopen.
  assert (e' = e /\ s = session_step CallStop (w_session w)
          /\ steps = [Join 1; DestroyAllWindows]) as (-> & -> & ->).
  { destruct e'; injection H as <- <- <-; done. }
  split; [done|]. split; [done|].
  assert (Hready : queue_ready (session_step CallStop (w_session w))).
  { apply SessionFacts.session_step_ready. rewrite Hn.
    apply SessionFacts.session_exec_ready.
    split; [unfold bounded; cbn; lia | done]. }
  assert (Hrun : running (s_thread (session_step CallStop (w_session w))) = false)
    by done.
  intros acts. split; [|split].
  - destruct (running (s_thread (session_exec acts _))) eqn:Hr; [|done].
    apply SessionFacts.session_exec_running in Hr as [Hr _]. cbn in Hr. congruence.
  - pose proof (stopped_captures acts _ Hrun) as Hle.
    destruct (s_at _); lia.
  - intros Hsteps. pose proof (return_exec acts _ Hrun Hready) as Hle.
    assert (steps_to_return (s_at (session_step CallStop (w_session w))) <= 6)%nat
      by (cbn [session_step s_at]; destruct (s_at (w_session w)); cbn; lia).
    destruct (s_at (session_exec acts _)); cbn [steps_to_return] in Hle; try lia.
    done.
Qed.

(** The loop at a frame rate that converts, while the frame counter has
    room: it ends at the first pass whose key is [q], and with no such
    pass it goes on. *)
Lemma display_loop_quits (target_width target_fps : Z) (fps : spec_float) turns :
  F64.of_int target_fps = Ok fps -> F64.is_zero fps = false ->
  forall w,
    0 <= w_frame_count w -> w_frame_count w + Z.of_nat (length turns) < 2 ^ 53 ->
    (display_loop target_width target_fps turns w).1
      = if existsb quits turns then KeyQ else Open.
Proof.
  intros Hfps Hnz. induction turns as [|t turns IH]; intros w Hlo Hhi; [done|].
  cbn [length] in Hhi. destruct t as [cap|clk]; cbn [display_loop existsb quits orb].
  - apply IH; cbn [w_frame_count]; lia.
  - destruct (display_pass_returns target_width target_fps clk
                (mkDisplay (s_thread (w_session w)) (w_frame_count w)
                   (w_last_fps_update w)) fps Hfps Hnz)
      as (st' & evs & -> & Hc); [cbn; lia|].
    cbn [frame_count] in Hc.
    destruct (Z.land (key clk) 255 =? 113); [done|].
    cbn [orb]. apply IH; cbn [w_frame_count]; lia.
Qed.

(** X7. [main] never fails, whatever is typed: the width it chooses is
    360, 480 or 640, it opens the window at that width and at 15 frames
    per second, and the display loop then ends by the key [q] and by
    nothing else. It closes, with the [finally] block run, at the first
    pass in which the low byte of the key code is 113, that of [q], and
    stays open with the flag up as long as there is none. *)
Theorem main_ends_by_key (typed : result string) (start_time : spec_float) turns :
  Z.of_nat (length turns) < 2 ^ 53 ->
  let q_pressed :=
    existsb (fun t => match t with
                      | Pass clk => Z.land (key clk) 255 =? 113
                      | Producer _ => false
                      end) turns in
  exists width s steps,
    (width = 360 \/ width = 480 \/ width = 640)
    /\ selected_width typed = Ok width
    /\ main typed start_time turns
         = Ok (display_optimized_window width 15 start_time turns)
    /\ display_optimized_window width 15 start_time turns
         = (if q_pressed then KeyQ else Open, s, steps)
    /\ (q_pressed = true ->
          steps = [Join 1; DestroyAllWindows] /\ running (s_thread s) = false)
    /\ (q_pressed = false -> steps = [] /\ running (s_thread s) = true)
    /\ target_width (s_thread s) = width
    /\ maxsize (frame_queue (s_thread s)) = 2.
Proof.
  intros Hlen q_pressed.
  destruct (MainFacts.selected_width_returns typed) as (width & Hw & Hin).
  exists width. unfold main. rewrite Hw. cbn [mbind result_bind].
  change main_target_fps with 15. change q_pressed with (existsb quits turns).
  unfold display_optimized_window.
  pose (w0 := mkWindow (session_start (init (frame:=frame) width
                                          default_max_queue_size)) 0 start_time).
  fold w0.
  pose proof (display_loop_quits width 15 _ turns eq_refl eq_refl w0) as Hend.
  destruct (display_loop_session width 15 turns w0) as [n Hn].
  destruct (display_loop width 15 turns w0) as [e w] eqn:Hloop.
  cbn [fst snd] in Hend, Hn. rewrite Hend by (cbn; lia).
  assert (Hobj : target_width (s_thread (w_session w)) = width
                 /\ maxsize (frame_queue (s_thread (w_session w))) = 2).
  { rewrite Hn. split.
    - apply SessionFacts.session_exec_width.
    - etrans; [apply SessionFacts.session_exec_ready|done].
      split; [unfold bounded; cbn; lia | done]. }
  destruct (existsb quits turns) eqn:Hq.
  - eexists _, _. split; [done|]. split; [done|]. split; [done|].
    split; [done|]. split; [by intros _|]. split; [done|]. exact Hobj.
  - eexists _, _. split; [done|]. split; [done|]. split; [done|].
    split; [done|]. split; [done|]. split; [|exact Hobj]. intros _.
    split; [done|]. rewrite Hn. apply SessionFacts.session_exec_running.
    split; [done|]. intros Hstop. apply list_elem_of_fmap in Hstop as (t & Ht & _).
    by destruct t.
Qed.

(** X8. At zero frames per second the window fails in its first pass:
    [1.0 / target_fps] raises [ZeroDivisionError], the [finally] block
    stops the thread and destroys the windows, and the exception leaves
    the function. No pass is completed, whatever the producer did
    before. *)
Theorem zero_fps_fails (target_width : Z) (start_time : spec_float) turns :
  existsb (fun t => match t with Pass _ => true | _ => false end) turns = true ->
  exists s,
    display_optimized_window target_width 0 start_time turns
      = (Raised (Exn ZeroDivisionError "float division by zero"), s,
         [Join 1; DestroyAllWindows])
    /\ running (s_thread s) = false.
Proof.
  intros Hpass. unfold display_optimized_window.
  pose (w0 := mkWindow (session_start (init (frame:=frame) target_width
                                          default_max_queue_size)) 0 start_time).
  fold w0.
  assert (H : forall w, w_frame_count w = 0 ->
            exists w', display_loop target_width 0 turns w
              = (Raised (Exn ZeroDivisionError "float division by zero"), w')).
  { induction turns as [|t turns IH]; intros w Hc; [done|].
    destruct t as [cap|clk]; cbn [display_loop existsb orb] in *.
    - by apply IH.
    - rewrite display_pass_zero_fps by done. by eexists. }
  destruct (H w0 eq_refl) as [w' ->]. by eexists.
Qed.
End Facts.
End WindowFacts.

(** ** The relay server: requests that are not answered as asked *)

Module RelayFacts.
Import ShowPC.

(** X9. [GET /screen] reads the [mode] parameter and never uses it:
    the answer depends on [q] alone, so a parameter of any other name,
    [mode] included, changes nothing. *)
Theorem screen_ignores_mode {image : Type} (env : pil image)
    (args : gmap string string) (k v : string) :
  k <> "q" ->
  screen env (<[k := v]> args) = screen env args
  /\ get_screen env (<[k := v]> args) = get_screen env args
  /\ screen env (delete k args) = screen env args.
Proof.
  intros Hk. unfold get_screen, screen.
  rewrite lookup_insert_ne, lookup_delete_ne by done. done.
Qed.

(** X10. An unusable [q] fails before the capture. The quality is
    parsed outside the [try] block: when [q] is no integer literal, the
    view raises the [ValueError] of [int], whatever the imaging library
    would have answered, and the client gets the 500 page instead of a
    picture. *)
Theorem screen_bad_quality {image : Type} (env : pil image)
    (args : gmap string string) (raw : string) (e : exn) :
  args !! "q" = Some raw -> PyStr.int raw = Raise e ->
  screen env args = Raise e
  /\ get_screen env args = mkResponse 500 "text/html" (Html "Internal Server Error")
  /\ forall env' : pil image, screen env' args = screen env args.
Proof.
  intros Hraw Hint. unfold get_screen, screen. by rewrite Hraw, Hint.
Qed.

(** X11. A body that is no JSON object is answered with status 500, not
    turned away as a bad request: also when [request.json] itself raises,
    the [except] branch takes it and answers with the text of that
    exception. The pointer device is not touched, not even asked for its
    size. *)
Theorem click_bad_body {G : Type} (gui : pyautogui G) (req : result pyval) (g : G) :
  (forall d, req <> Ok (PDict d)) ->
  exists e,
    handle_click gui req g = (Ok (failure e), g)
    /\ status_code (failure e) = 500
    /\ payload (failure e)
         = Json (PDict {[ "status" := PStr "error"; "message" := PStr (msg e) ]})
    /\ (forall e', req = Raise e' -> e = e')
    /\ (forall v, req = Ok v -> kind e = AttributeError).
Proof.
  intros Hn. rewrite ClickFacts.handle_click_unfold.
  unfold click_steps. rewrite ClickFacts.M_bind_unfold. unfold lift at 1.
  destruct req as [data|e].
  - rewrite ClickFacts.M_bind_unfold. unfold lift at 1.
    destruct data; cbn [get]; try (eexists; repeat split; by try done).
    by destruct (Hn d).
  - exists e. repeat split; try done. by intros e' [= ->].
Qed.

(** X12. On a pointer device that carries out what it is told, [POST
    /click] is all or nothing as long as the coordinates can be written
    into the answer. Either the body is a JSON object whose coordinates
    compute and have no more than 4300 digits, the answer is the success
    payload, and the device saw exactly one move to the target, lasting
    [0.1] s, and one click; or the answer is the error payload with
    status 500 and the device saw nothing; or, when a coordinate has more
    than 4300 digits, the device saw the move and the click, and the
    answer is all the same the error payload with status 500, because
    [jsonify] cannot write the coordinate. *)
Theorem click_injection_cases (width height : Z) (req : result pyval)
    (log : list gui_event) :
  exists resp log',
    handle_click (recording_gui width height) req log = (Ok resp, log')
    /\ ((exists d cx cy,
           req = Ok (PDict d)
           /\ coordinate d "x" width = Ok cx /\ coordinate d "y" height = Ok cy
           /\ PyStr.ndigits cx <= 4300 /\ PyStr.ndigits cy <= 4300
           /\ resp = success cx cy
           /\ log' = (log ++ [Moved cx cy (F64.dec 1 10); Clicked])%list)
        \/ (exists e, resp = failure e /\ status_code resp = 500 /\ log' = log)
        \/ (exists d cx cy,
              req = Ok (PDict d)
              /\ coordinate d "x" width = Ok cx /\ coordinate d "y" height = Ok cy
              /\ (4300 < PyStr.ndigits cx \/ 4300 < PyStr.ndigits cy)
              /\ resp = mkResponse 500 "application/json"
                          (Json (PDict {[ "status" := PStr "error";
                                          "message" := PStr (msg PyStr.str_limit) ]}))
              /\ log' = (log ++ [Moved cx cy (F64.dec 1 10); Clicked])%list)).
Proof.
  assert ((exists d, req = Ok (PDict d)) \/ forall d, req <> Ok (PDict d))
    as [[d ->]|Hn] by (destruct req as [[]|]; eauto).
  - rewrite ClickFacts.handle_click_dict. cbn [recording_gui size moveTo click].
    destruct (coordinate d "x" width) as [cx|e] eqn:Hx.
    2: { eexists _, _. split; [done|]. right. left. by exists e. }
    destruct (coordinate d "y" height) as [cy|e] eqn:Hy.
    2: { eexists _, _. split; [done|]. right. left. by exists e. }
    eexists _, _. split; [done|]. rewrite <- app_assoc. cbn [app].
    destruct (PyStr.ndigits cx <=? 4300) eqn:Hdx;
      [destruct (PyStr.ndigits cy <=? 4300) eqn:Hdy|]; cbn [andb].
    + apply Z.leb_le in Hdx, Hdy. left. by exists d, cx, cy.
    + apply Z.leb_gt in Hdy. right. right. exists d, cx, cy.
      split; [done|]. split; [done|]. split; [done|]. split; [by right|]. done.
    + apply Z.leb_gt in Hdx. right. right. exists d, cx, cy.
      split; [done|]. split; [done|]. split; [done|]. split; [by left|]. done.
  - rewrite ClickFacts.handle_click_unfold.
    destruct (ClickFacts.click_steps_not_dict (recording_gui width height) req log Hn)
      as [e ->]. eexists _, _. split; [done|]. right. left. by exists e.
Qed.
End RelayFacts.

(** ** The relay server: [/screen_video] *)

Module StreamFacts.
Import ShowPC ShowPCStream.
Section Facts.
Context {image : Type}.
Implicit Types (env : pil image) (envs : list (pil image)).

Lemma generate_pass_cases env :
  generate_pass env =
    Ok match encoded env with
       | Ok b => [Yield (stream_part b); StreamSleep (F64.dec 1 10)]
       | Raise e => [Print ("截图错误: " ++ str_of_exn e); StreamSleep F64.one]
       end.
Proof. unfold generate_pass. by destruct (encoded env). Qed.

(** X13. The video stream never ends on a failure, and sends nothing for
    a pass that failed. Whatever the imaging library answers in each
    pass, [generate_screenshot] raises nothing. The parts it yields are,
    in order, those of the passes whose [ImageGrab.grab()] and whose JPEG
    encoding at quality 85 succeeded, each being the boundary line
    [--frame], the header [Content-Type: image/jpeg], an empty line, the
    picture and a line end, the line ends being CR LF. A failed pass
    prints one line with the text of the exception and yields no part.
    The generator pauses once per pass, [0.1] s after a part and [1] s
    after a failure. The boundary of the parts is the one that
    [screen_video] declares. *)
Theorem video_stream envs :
  let jpeg85 env := img ← grab env; save_jpeg env img (Some 85) in
  exists evs,
    generate_screenshot envs = Ok evs
    /\ yielded evs =
         omap (fun env =>
                 match jpeg85 env with
                 | Ok picture =>
                     Some (list_byte_of_string "--frame" ++ [Byte.x0d; Byte.x0a]
                           ++ list_byte_of_string "Content-Type: image/jpeg"
                           ++ [Byte.x0d; Byte.x0a; Byte.x0d; Byte.x0a]
                           ++ picture ++ [Byte.x0d; Byte.x0a])%list
                 | Raise _ => None
                 end) envs
    /\ slept evs =
         (fun env => match jpeg85 env with
                     | Ok _ => S754_finite false 7205759403792794 (-56)
                     | Raise _ => S754_finite false 4503599627370496 (-52)
                     end) <$> envs
    /\ printed evs =
         omap (fun env => match jpeg85 env with
                          | Ok _ => None
                          | Raise e => Some ("截图错误: " ++ msg e)%string
                          end) envs
    /\ screen_video_mimetype = "multipart/x-mixed-replace; boundary=frame".
Proof.
  intros jpeg85. induction envs as [|env envs (rest & IH & Hy & Hs & Hp & _)].
  - by exists [].
  - cbn [generate_screenshot]. rewrite generate_pass_cases, IH.
    cbn [mbind result_bind]. eexists. split; [done|].
    cbn [omap list_omap fmap list_fmap]. change (encoded env) with (jpeg85 env).
    unfold yielded, slept, printed in *.
    destruct (jpeg85 env) as [picture|e];
      cbn [omap list_omap app]; rewrite Hy, Hs, Hp; by repeat split.
Qed.

(** The picture can be read back from a part: parts with different
    pictures differ. *)
Lemma stream_part_inj (b b' : list Byte.byte) :
  stream_part b = stream_part b' -> b = b'.
Proof.
  unfold stream_part. intros H. apply app_inv_head in H. by apply app_inv_tail in H.
Qed.
End Facts.
End StreamFacts.

(** ** The relay server: its own address *)

Module AddressFacts.
Import ShowPCAddress.
Section Facts.
Context {W sock : Type}.
Implicit Types (net : sockets W sock) (w : W).

(** X14. [get_local_ip] always returns an address and never raises. It
    is the host part of [getsockname()] exactly when the socket could be
    created, connected, asked and closed; when any of the four calls
    raises, [close] included, it is [127.0.0.1], and the sockets are
    then as the failing call left them: nothing more is called, so a
    socket that was created is not closed. *)
Theorem get_local_ip_answers net w :
  exists ip w',
    get_local_ip net w = (Ok ip, w')
    /\ ((exists s w1 w2 port w3,
           socket net "AF_INET" "SOCK_DGRAM" w = (Ok s, w1)
           /\ connect net s ("8.8.8.8", 80) w1 = (Ok (), w2)
           /\ getsockname net s w2 = (Ok (ip, port), w3)
           /\ close net s w3 = (Ok (), w'))
        \/ (ip = "127.0.0.1"
            /\ exists e, probe net w = (Raise e, w')
            /\ ((exists s w1, socket net "AF_INET" "SOCK_DGRAM" w = (Ok s, w1)
                   /\ (connect net s ("8.8.8.8", 80) w1 = (Raise e, w')
                       \/ exists w2, connect net s ("8.8.8.8", 80) w1 = (Ok (), w2)
                            /\ (getsockname net s w2 = (Raise e, w')
                                \/ exists name w3,
                                     getsockname net s w2 = (Ok name, w3)
                                     /\ close net s w3 = (Raise e, w'))))
                \/ socket net "AF_INET" "SOCK_DGRAM" w = (Raise e, w')))).
Proof.
  unfold get_local_ip, try_exceptM, probe.
  rewrite ClickFacts.M_bind_unfold.
  destruct (socket net _ _ w) as [[s|e] w1] eqn:Hs.
  2: { exists "127.0.0.1", w1. split; [done|]. right. split; [done|].
       exists e. split; [done|]. by right. }
  rewrite ClickFacts.M_bind_unfold.
  destruct (connect net s _ w1) as [[[]|e] w2] eqn:Hc.
  2: { exists "127.0.0.1", w2. split; [done|]. right. split; [done|].
       exists e. split; [done|]. left. exists s, w1. split; [done|]. by left. }
  rewrite ClickFacts.M_bind_unfold.
  destruct (getsockname net s w2) as [[[ip port]|e] w3] eqn:Hn.
  2: { exists "127.0.0.1", w3. split; [done|]. right. split; [done|].
       exists e. split; [done|]. left. exists s, w1. split; [done|]. right.
       exists w2. split; [done|]. by left. }
  rewrite ClickFacts.M_bind_unfold. cbn [fst].
  destruct (close net s w3) as [[[]|e] w4] eqn:Hcl.
  - exists ip, w4. split; [done|]. left. by exists s, w1, w2, port, w3.
  - exists "127.0.0.1", w4. split; [done|]. right. split; [done|].
    exists e. split; [done|]. left. exists s, w1. split; [done|]. right.
    exists w2. split; [done|]. right. by exists (ip, port), w3.
Qed.
End Facts.
End AddressFacts.

(** * Further scenarios *)

Module FurtherScenarios.
Import ShowScreen ShowScreenApp ShowPC Samples SessionSamples.

(** The sample session is closed by the key [q] of its second pass. *)
Lemma window_closes_witness :
  exists s,
    display_optimized_window 480 15 (F64.of_bin 100 0) sample_turns
      = (KeyQ, s, [Join 1; DestroyAllWindows])
    /\ running (s_thread s) = false
    /\ forall acts, (6 <= thread_steps acts)%nat ->
         s_at (session_exec acts s) = Returned.
Proof.
  eexists. split; [vm_compute; reflexivity|].
  destruct (WindowFacts.window_closes 480 15 (F64.of_bin 100 0) sample_turns
              KeyQ _ _ ltac:(vm_compute; reflexivity) ltac:(done))
    as (_ & Hrun & Hacts).
  split; [exact Hrun|]. intros acts. exact (proj2 (proj2 (Hacts acts))).
Defined.

(** The same session from [main], with [2] typed at the prompt: the
    window is 480 wide and runs at 15 frames per second. *)
Lemma main_ends_by_key_witness :
  exists s,
    main (Ok "2") (F64.of_bin 100 0) sample_turns
      = Ok (display_optimized_window 480 15 (F64.of_bin 100 0) sample_turns)
    /\ display_optimized_window 480 15 (F64.of_bin 100 0) sample_turns
       = (KeyQ, s, [Join 1; DestroyAllWindows])
    /\ running (s_thread s) = false.
Proof.
  destruct (WindowFacts.main_ends_by_key (Ok "2") (F64.of_bin 100 0) sample_turns
              ltac:(vm_compute; reflexivity))
    as (width & s & steps & _ & Hw & Hmain & Hwin & Hq & _).
  injection Hw as <-. destruct (Hq eq_refl) as [-> Hrun].
  exists s. split; [exact Hmain|]. split; [exact Hwin | exact Hrun].
Defined.

(** The same session at zero frames per second fails in its first pass. *)
Lemma zero_fps_fails_witness :
  exists s,
    display_optimized_window 480 0 (F64.of_bin 100 0) sample_turns
      = (Raised (Exn ZeroDivisionError "float division by zero"), s,
         [Join 1; DestroyAllWindows]).
Proof.
  destruct (WindowFacts.zero_fps_fails 480 (F64.of_bin 100 0) sample_turns eq_refl)
    as (s & H & _).
  exists s. exact H.
Defined.

(** [GET /screen?mode=stream&q=5] is answered as [GET /screen?q=5]. *)
Lemma screen_ignores_mode_witness :
  screen desktop (<["mode" := "stream"]> (q_is "5")) = screen desktop (q_is "5").
Proof.
  exact (proj1 (RelayFacts.screen_ignores_mode desktop (q_is "5") "mode" "stream"
                  ltac:(done))).
Defined.

(** [GET /screen?q=high] *)
Lemma screen_bad_quality_witness :
  get_screen desktop (q_is "high")
    = mkResponse 500 "text/html" (Html "Internal Server Error").
Proof.
  destruct (RelayFacts.screen_bad_quality desktop (q_is "high") "high"
              (Exn ValueError "invalid literal for int() with base 10: high")
              ltac:(vm_compute; reflexivity) ltac:(vm_compute; reflexivity))
    as (_ & H & _).
  exact H.
Defined.

(** A JSON array as body, and a body that Flask refuses. *)
Lemma click_bad_body_witness :
  (exists e, handle_click phone (Ok (PList [])) [] = (Ok (failure e), []))
  /\ handle_click phone (Raise (Exn HTTPException "415 Unsupported Media Type")) []
       = (Ok (failure (Exn HTTPException "415 Unsupported Media Type")), []).
Proof.
  split.
  - destruct (RelayFacts.click_bad_body phone (Ok (PList [])) [] ltac:(done))
      as (e & H & _).
    exists e. exact H.
  - destruct (RelayFacts.click_bad_body phone
                (Raise (Exn HTTPException "415 Unsupported Media Type")) []
                ltac:(done)) as (e & H & _ & _ & He & _).
    rewrite (He _ eq_refl) in H. exact H.
Defined.

(** A line of 4301 digits is an integer that [int] refuses: [main]
    takes the bare [except] and the default width. *)
Example long_choice_takes_default :
  selected_width (Ok (PyStr.repeat "1" 4301)) = Ok 480
  /\ selected_width (Ok (PyStr.repeat "1" 4300)) = Ok 360.
Proof. by vm_compute. Qed.

(** A coordinate of 4301 digits: the pointer is moved and clicked, and
    the answer is the error payload with status 500. *)
Example click_then_error :
  handle_click (recording_gui 1 1)
    (Ok (PDict {[ "x" := PInt (10 ^ 4300); "y" := PInt 0 ]})) []
    = (Ok (mkResponse 500 "application/json"
             (Json (PDict {[ "status" := PStr "error";
                             "message" := PStr (msg PyStr.str_limit) ]}))),
       [Moved (10 ^ 4300) 0 (F64.dec 1 10); Clicked]).
Proof. by vm_compute. Qed.
End FurtherScenarios.
